(** * clinic_report: the report render pipeline and the newest-report query

    A shallow embedding of [src/report_template/render.js] (module [Render])
    and of [src/powershell/newest_folder_getter.ps1] (module
    [NewestFolderGetter]), with the language primitives they rely on
    (modules [Js] and [NodePath]).

    Strings are Rocq strings holding the UTF-8 bytes of the JavaScript
    string.  Everything outside the program (clock, file system, the
    [path] and [JSON] library functions that are not spelled out here,
    the browser) is a field of the record [Render.World]. *)

From Stdlib Require Import ZArith QArith Ascii String DecimalString List
  Permutation Sorted Lia.
From Stdlib Require Import DecimalPos DecimalZ.
From stdpp Require Import base gmap list strings.

Set Warnings "-register-all".
#[local] Open Scope string_scope.

(* ================================================================== *)
(** ** JavaScript string primitives *)
(* ================================================================== *)

Module Js.

(** [String(n)] for an integer. *)
Definition String_nat (n : nat) : string := NilZero.string_of_uint (Nat.to_uint n).
Definition String_Z (z : Z) : string := NilZero.string_of_int (Z.to_int z).

(** [s.padStart(targetLength, padString)]. *)
Definition padStart (s : string) (targetLength : nat) (padString : string) : string :=
  let len := String.length s in
  if (targetLength <=? len)%nat then s
  else if String.eqb padString "" then s
  else
    let fillLen := (targetLength - len)%nat in
    substring 0 fillLen (String.concat "" (repeat padString fillLen)) ++ s.

(** White space and line terminators stripped by [trim], by encoded length:
    U+0009..U+000D, U+0020; U+00A0; U+1680, U+2000..U+200A, U+2028, U+2029,
    U+202F, U+205F, U+3000, U+FEFF. *)
Definition is_ws1 (a : ascii) : bool :=
  let n := nat_of_ascii a in ((9 <=? n) && (n <=? 13) || (n =? 32))%nat.

Definition is_ws2 (a b : ascii) : bool :=
  ((nat_of_ascii a =? 194) && (nat_of_ascii b =? 160))%nat.

Definition is_ws3 (a b c : ascii) : bool :=
  let x := nat_of_ascii a in
  let y := nat_of_ascii b in
  let z := nat_of_ascii c in
  ((x =? 225) && (y =? 154) && (z =? 128)
   || (x =? 226) && (y =? 128)
      && ((128 <=? z) && (z <=? 138) || (z =? 168) || (z =? 169) || (z =? 175))
   || (x =? 226) && (y =? 129) && (z =? 159)
   || (x =? 227) && (y =? 128) && (z =? 128)
   || (x =? 239) && (y =? 187) && (z =? 191))%nat.

Fixpoint trimStart (s : string) : string :=
  match s with
  | EmptyString => s
  | String a r =>
      if is_ws1 a then trimStart r
      else match r with
           | EmptyString => s
           | String b r2 =>
               if is_ws2 a b then trimStart r2
               else match r2 with
                    | EmptyString => s
                    | String c r3 => if is_ws3 a b c then trimStart r3 else s
                    end
           end
  end.

Definition rev_string (s : string) : string :=
  string_of_list_ascii (rev (list_ascii_of_string s)).

(** The same scan from the end, on the reversed bytes. *)
Fixpoint trimStart_rev (s : string) : string :=
  match s with
  | EmptyString => s
  | String a r =>
      if is_ws1 a then trimStart_rev r
      else match r with
           | EmptyString => s
           | String b r2 =>
               if is_ws2 b a then trimStart_rev r2
               else match r2 with
                    | EmptyString => s
                    | String c r3 => if is_ws3 c b a then trimStart_rev r3 else s
                    end
           end
  end.

Definition trimEnd (s : string) : string := rev_string (trimStart_rev (rev_string s)).

(** [s.trim()]. *)
Definition trim (s : string) : string := trimEnd (trimStart s).

(** [s.toLowerCase()]: the letters A..Z are lowered.  Code points outside
    ASCII are kept as they are; none of them lowers to an ASCII full stop,
    p, d or f, so a comparison of the result with ".pdf" is not affected. *)
Definition lower_ascii (a : ascii) : ascii :=
  let n := nat_of_ascii a in
  if ((65 <=? n) && (n <=? 90))%nat then ascii_of_nat (n + 32) else a.

Fixpoint toLowerCase (s : string) : string :=
  match s with
  | EmptyString => EmptyString
  | String a r => String (lower_ascii a) (toLowerCase r)
  end.

(** [s.endsWith("/")]. *)
Fixpoint endsWith_slash (s : string) : bool :=
  match s with
  | EmptyString => false
  | String a EmptyString => Ascii.eqb a "/"
  | String _ r => endsWith_slash r
  end.

(** A string used as a condition: only the empty string is falsy. *)
Definition truthy_string (s : string) : bool := negb (String.eqb s "").

(** The UTF-16 view of a string, for [length] and indexed reads. *)
Definition cont (a : ascii) : N := (N_of_ascii a - 128)%N.

Fixpoint code_points (s : string) : list N :=
  match s with
  | EmptyString => []
  | String a r =>
      let x := N_of_ascii a in
      if (x <? 192)%N then x :: code_points r
      else match r with
           | EmptyString => [x]
           | String b r2 =>
               if (x <? 224)%N then ((x - 192) * 64 + cont b)%N :: code_points r2
               else match r2 with
                    | EmptyString => [x]
                    | String c r3 =>
                        if (x <? 240)%N
                        then ((x - 224) * 4096 + cont b * 64 + cont c)%N :: code_points r3
                        else match r3 with
                             | EmptyString => [x]
                             | String d r4 =>
                                 ((x - 240) * 262144 + cont b * 4096
                                  + cont c * 64 + cont d)%N :: code_points r4
                             end
                    end
           end
  end.

Definition code_units_of (cp : N) : list N :=
  if (cp <? 65536)%N then [cp]
  else [(55296 + (cp - 65536) / 1024)%N; (56320 + (cp - 65536) mod 1024)%N].

Definition code_units (s : string) : list N := concat (map code_units_of (code_points s)).

Definition byte (n : N) : string := String (ascii_of_N n) EmptyString.

Definition string_of_code_unit (u : N) : string :=
  if (u <? 128)%N then byte u
  else if (u <? 2048)%N then byte (192 + u / 64) ++ byte (128 + u mod 64)
  else byte (224 + u / 4096) ++ byte (128 + (u / 64) mod 64) ++ byte (128 + u mod 64).

End Js.

(* ================================================================== *)
(** ** Node's [path.extname] *)
(* ================================================================== *)

(** The scan of [extname] in Node's lib/path.js, for both platforms: from
    the end of the path, past trailing separators, to the separator that
    starts the last component. *)

Module NodePath.

Inductive platform := posix | win32.

Definition isPathSeparator (p : platform) (code : ascii) : bool :=
  match p with
  | posix => Ascii.eqb code "/"
  | win32 => Ascii.eqb code "/" || Ascii.eqb code "\"
  end.

Definition isWindowsDeviceRoot (code : ascii) : bool :=
  let n := nat_of_ascii code in
  ((65 <=? n) && (n <=? 90) || (97 <=? n) && (n <=? 122))%nat.

(** The variables of the scan in [extname]. *)
Record ext_state := {
  startDot : Z;
  startPart : Z;
  end_ : Z;
  matchedSlash : bool;
  preDotState : Z
}.

(** First index the scan may reach: 2 after a drive letter on win32. *)
Definition ext_start (p : platform) (path : string) : nat :=
  match p, path with
  | win32, String a (String b _) =>
      if Ascii.eqb b ":" && isWindowsDeviceRoot a then 2%nat else 0%nat
  | _, _ => 0%nat
  end.

(** The loop [for (i = path.length - 1; i >= start; --i)]: [k] iterations
    are left and the current index is [start + k - 1]. *)
Fixpoint ext_loop (p : platform) (path : string) (start k : nat) (st : ext_state)
  : ext_state :=
  match k with
  | O => st
  | S k' =>
      let i := (start + k')%nat in
      match String.get i path with
      | None => st
      | Some code =>
          if isPathSeparator p code then
            if negb (matchedSlash st) then
              {| startDot := startDot st; startPart := Z.of_nat i + 1;
                 end_ := end_ st; matchedSlash := matchedSlash st;
                 preDotState := preDotState st |}
            else ext_loop p path start k' st
          else
            let st1 :=
              if (end_ st =? -1)%Z then
                {| startDot := startDot st; startPart := startPart st;
                   end_ := Z.of_nat i + 1; matchedSlash := false;
                   preDotState := preDotState st |}
              else st in
            let st2 :=
              if Ascii.eqb code "." then
                if (startDot st1 =? -1)%Z then
                  {| startDot := Z.of_nat i; startPart := startPart st1;
                     end_ := end_ st1; matchedSlash := matchedSlash st1;
                     preDotState := preDotState st1 |}
                else if negb (preDotState st1 =? 1)%Z then
                  {| startDot := startDot st1; startPart := startPart st1;
                     end_ := end_ st1; matchedSlash := matchedSlash st1;
                     preDotState := 1 |}
                else st1
              else if negb (startDot st1 =? -1)%Z then
                {| startDot := startDot st1; startPart := startPart st1;
                   end_ := end_ st1; matchedSlash := matchedSlash st1;
                   preDotState := -1 |}
              else st1 in
            ext_loop p path start k' st2
      end
  end.

Definition extname (p : platform) (path : string) : string :=
  let start := ext_start p path in
  let st0 := {| startDot := -1; startPart := Z.of_nat start; end_ := -1;
                matchedSlash := true; preDotState := 0 |} in
  let st := ext_loop p path start (String.length path - start) st0 in
  if (startDot st =? -1)%Z || (end_ st =? -1)%Z || (preDotState st =? 0)%Z
     || ((preDotState st =? 1)%Z && (startDot st =? end_ st - 1)%Z
         && (startDot st =? startPart st + 1)%Z)
  then ""
  else substring (Z.to_nat (startDot st)) (Z.to_nat (end_ st - startDot st)) path.

End NodePath.

(* ================================================================== *)
(** ** render.js *)
(* ================================================================== *)

Module Render.
Import Js.

(** *** Values read from the data file *)

(** What [JSON.parse] can return.  A number is carried by its canonical
    rendering, the string [String(n)] gives for it. *)
Inductive value : Type :=
| JNull
| JBool (b : bool)
| JNum (repr : string)
| JStr (s : string)
| JArr (l : list value)
| JObj (m : gmap string value).

(** A value used as a condition; [None] is [undefined]. *)
Definition truthy (v : option value) : bool :=
  match v with
  | None | Some JNull => false
  | Some (JBool b) => b
  | Some (JNum r) => negb (String.eqb r "0" || String.eqb r "NaN")
  | Some (JStr s) => truthy_string s
  | Some (JArr _) | Some (JObj _) => true
  end.

(** What a library function throws. *)
Inductive error :=
| Error (msg : string)
| TypeError (msg : string)
| SyntaxError (msg : string)
| TimeoutError (msg : string)
| SystemError (msg : string).

(** The answer of a call that may throw. *)
Inductive result (A : Type) :=
| Ok (a : A)
| Err (e : error).
Arguments Ok {A} a.
Arguments Err {A} e.

(** The strings of a list of conversions, or the first error among them. *)
Fixpoint sequence (l : list (result string)) : result (list string) :=
  match l with
  | [] => Ok []
  | Err e :: _ => Err e
  | Ok s :: l' =>
      match sequence l' with
      | Ok ss => Ok (s :: ss)
      | Err e => Err e
      end
  end.

(** [String(v)].  An array is its elements joined by commas, [null]
    elements giving the empty string.  An object is converted by its
    [toString] method: the one of [Object.prototype], unless the object has
    a [toString] key of its own.  A value read from JSON is no function, so
    the conversion then finds no method that gives a primitive (the
    inherited [valueOf] returns the object itself) and throws. *)
Fixpoint String_ (v : value) : result string :=
  match v with
  | JNull => Ok "null"
  | JBool true => Ok "true"
  | JBool false => Ok "false"
  | JNum r => Ok r
  | JStr s => Ok s
  | JArr l =>
      match sequence
              (map (fun e => match e with JNull => Ok "" | _ => String_ e end) l) with
      | Ok ss => Ok (String.concat "," ss)
      | Err e => Err e
      end
  | JObj m =>
      match m !! "toString" with
      | Some _ => Err (TypeError "Cannot convert object to primitive value")
      | None => Ok "[object Object]"
      end
  end.

(** The array index a property key denotes, below [len]. *)
Definition index_of_key (len : nat) (key : string) : option nat :=
  find (fun i => String.eqb (String_nat i) key) (seq 0 len).

(** The own property of a value under a key: a binding of an object, an
    element or the length of an array, a code unit or the length of a
    string. *)
Definition own_property (v : value) (key : string) : option value :=
  match v with
  | JObj m => m !! key
  | JArr l =>
      if String.eqb key "length" then Some (JNum (String_nat (length l)))
      else match index_of_key (length l) key with
           | Some i => l !! i
           | None => None
           end
  | JStr s =>
      let us := code_units s in
      if String.eqb key "length" then Some (JNum (String_nat (length us)))
      else match index_of_key (length us) key with
           | Some i => JStr <$> (string_of_code_unit <$> us !! i)
           | None => None
           end
  | JNull | JBool _ | JNum _ => None
  end.

(** [String(f)] for a built-in function named [name]. *)
Definition native (name : string) : string :=
  "function " ++ name ++ "() { [native code] }".

Definition Object_prototype_methods : list string :=
  ["__defineGetter__"; "__defineSetter__"; "hasOwnProperty"; "__lookupGetter__";
   "__lookupSetter__"; "isPrototypeOf"; "propertyIsEnumerable"; "toString";
   "valueOf"; "toLocaleString"].

(** The member an object inherits from [Object.prototype] under a key, as the
    text [String(member)]: a method, the constructor [Object], or under
    [__proto__] the prototype itself. *)
Definition Object_prototype (key : string) : option string :=
  if String.eqb key "constructor" then Some (native "Object")
  else if String.eqb key "__proto__" then Some "[object Object]"
  else if existsb (String.eqb key) Object_prototype_methods then Some (native key)
  else None.

(** The prototypes of the values that are no objects. *)
Inductive prototype :=
| Array_prototype
| String_prototype
| Number_prototype
| Boolean_prototype.

(** What a property read gives: [undefined], a value of the data file, or a
    member inherited from a built-in prototype, kept as the text
    [String(member)]. *)
Inductive property :=
| Undefined
| Data (v : value)
| Inherited (text : string).

(** *** Effects: a trace of calls, and a result, an exception or an exit *)

Record images_t := { normalBaseUrl : string; patientBaseUrl : string }.
Record thresholds_t := { thin60 : Q; ratio_max : Q; ultra30 : Q }.
Record opts_t := {
  patientId : string;
  examDate : string;
  thresholds : thresholds_t;
  images : images_t
}.
Record payload_t := { data : list value; opts : opts_t }.

Record pdf_options := {
  path : string;
  printBackground : bool;
  preferCSSPageSize : bool
}.

(** An argument of [console.log] or [console.error]. *)
Inductive arg :=
| AStr (s : string)
| ANum (n : nat)
| AErr (e : error).

(** One entry per call the program makes on its surroundings, in order. *)
Inductive event :=
| ConsoleLog (args : list arg)
| ConsoleError (args : list arg)
| ConsoleTime (label : string)
| ConsoleTimeEnd (label : string)
| FsAccess (p : string)
| FsReadFile (p : string) (encoding : string)
| Launch (args : list string) (headless : string)
| NewPage
| PageOnConsole      (* page.on("console", ...); what the page prints later is not traced *)
| Goto (url : string) (waitUntil : string)
| Evaluate (payload : payload_t)
| WaitForSelector (selector : string) (timeout : Z)
| EvalCount (selector : string)      (* page.$$eval(selector, els => els.length) *)
| EmulateMediaType (type : string)
| Pdf (o : pdf_options)
| BrowserClose.

Inductive outcome (A : Type) :=
| Returns (a : A)
| Throws (e : error)
| Exits (code : Z).
Arguments Returns {A} a.
Arguments Throws {A} e.
Arguments Exits {A} code.

Definition M (A : Type) : Type := list event * outcome A.

Definition ret {A} (a : A) : M A := ([], Returns a).

Definition bind {A B} (m : M A) (f : A -> M B) : M B :=
  match m with
  | (t, Returns a) => let '(t', o) := f a in ((t ++ t')%list, o)
  | (t, Throws e) => (t, Throws e)
  | (t, Exits c) => (t, Exits c)
  end.

(** [promise.catch(handler)]: only a rejection reaches the handler. *)
Definition catch {A} (m : M A) (handler : error -> M A) : M A :=
  match m with
  | (t, Throws e) => let '(t', o) := handler e in ((t ++ t')%list, o)
  | _ => m
  end.

Definition emit (e : event) : M unit := ([e], Returns tt).
Definition throw {A} (e : error) : M A := ([], Throws e).

(** [process.exit(code)]. *)
Definition process_exit {A} (code : Z) : M A := ([], Exits code).

(** The answer of a library function that may throw. *)
Definition lift {A} (r : result A) : M A :=
  ([], match r with Ok a => Returns a | Err x => Throws x end).

(** A call on the surroundings: logged, then its answer. *)
Definition call {A} (e : event) (r : result A) : M A :=
  ([e], match r with Ok a => Returns a | Err x => Throws x end).

Declare Scope js_scope.
Delimit Scope js_scope with js.
Notation "x <- c1 ;; c2" := (bind c1 (fun x => c2))
  (at level 100, c1 at next level, right associativity) : js_scope.
Notation "c1 ;; c2" := (bind c1 (fun _ => c2))
  (at level 100, right associativity) : js_scope.
#[local] Open Scope js_scope.

(** *** The surroundings of one run *)

Record Date := {
  getFullYear : Z;
  getMonth : nat;
  getDate : nat;
  getHours : nat;
  getMinutes : nat;
  getSeconds : nat
}.

Record World := {
  platform : NodePath.platform;
  __dirname : string;
  path_resolve : list string -> string;
  path_join : list string -> string;
  path_dirname : string -> string;
  pathToFileURL_href : string -> string;
  JSON_parse : string -> result value;
  (* the member found under a key along the chain of a built-in prototype,
     as the text String(member); which ones there are depends on the
     version of the runtime *)
  prototype_member : prototype -> string -> option string;
  new_Date : Date;                          (* the clock read by ts() *)
  toLocaleString_ja_JP : string;            (* new Date().toLocaleString("ja-JP") *)
  fs_access : string -> result unit;
  fs_readFile : string -> result string;
  puppeteer_launch : result unit;
  browser_newPage : result unit;
  page_goto : string -> result unit;
  (* window.renderReportFromJson, when it is a function *)
  window_renderReportFromJson : option (list value -> opts_t -> result unit);
  page_waitForSelector : string -> Z -> result unit;
  page_count : string -> result nat;
  page_emulateMediaType : string -> result unit;
  page_pdf : pdf_options -> result unit;
  browser_close : result unit
}.

(** *** The functions of render.js *)

Definition DEFAULT_HTML_PATH (w : World) : string :=
  path_resolve w [__dirname w; "report_template.html"].

Definition ts (d : Date) : string :=
  let z := fun n : nat => padStart (String_nat n) 2 "0" in
  String_Z (getFullYear d) ++ z (getMonth d + 1)%nat ++ z (getDate d) ++ "-"
  ++ z (getHours d) ++ z (getMinutes d) ++ z (getSeconds d).

Definition toBaseUrl (w : World) (dirPath : string) : string :=
  let href := pathToFileURL_href w (path_resolve w [dirPath]) in
  if negb (endsWith_slash href) then href ++ "/" else href.

(** [flags.html] is [None] while it is [null] or [undefined]. *)
Fixpoint parseArgs_loop (argv : list string) (html : option string)
    (positional : list string) : option string * list string :=
  match argv with
  | [] => (html, positional)
  | a :: rest =>
      if String.eqb a "--html" then
        match rest with
        | [] => (None, positional)
        | v :: rest' => parseArgs_loop rest' (Some v) positional
        end
      else parseArgs_loop rest html (positional ++ [a])
  end.

Definition parseArgs (argv : list string) : option string * list string :=
  parseArgs_loop argv None [].

(** [json.key] for the two keys of [readTrichoData]: reading a property of
    [null] throws; no built-in prototype has a member of either name, so the
    read gives an own property or [undefined]. *)
Definition member (json : value) (key : string) : M (option value) :=
  match json with
  | JNull =>
      throw (TypeError ("Cannot read properties of null (reading '" ++ key ++ "')"))
  | _ => ret (own_property json key)
  end.

Definition readTrichoData (w : World) (tempDir : string) : M (value * list value) :=
  let p := path_join w [tempDir; "tricho_data.json"] in
  raw <- call (FsReadFile p "utf8") (fs_readFile w p) ;;
  json <- lift (JSON_parse w raw) ;;
  m <- member json "report_metadata" ;;
  let meta := match m with
              | Some v => if truthy m then v else JObj ∅
              | None => JObj ∅
              end in
  a <- member json "tricho_analysis" ;;
  let arr := match a with Some (JArr l) => l | _ => [] end in
  ret (meta, arr).

(** [meta?.[key]]: an own property, else the member the value inherits
    under the key; [undefined] on [null]. *)
Definition get (w : World) (meta : value) (key : string) : property :=
  match own_property meta key with
  | Some v => Data v
  | None =>
      let inherited := fun o : option string =>
        match o with Some text => Inherited text | None => Undefined end in
      match meta with
      | JNull => Undefined
      | JObj _ => inherited (Object_prototype key)
      | JArr _ => inherited (prototype_member w Array_prototype key)
      | JStr _ => inherited (prototype_member w String_prototype key)
      | JNum _ => inherited (prototype_member w Number_prototype key)
      | JBool _ => inherited (prototype_member w Boolean_prototype key)
      end
  end.

(** [s ? s : fallback] for the trimmed string [s]. *)
Definition or_fallback (str fallback : string) : string :=
  let s := trim str in
  if truthy_string s then s else fallback.

(** [safeMeta]: the trimmed string form of [meta?.[key]], or the fallback.
    It throws when [String(v)] does. *)
Definition safeMeta (w : World) (meta : value) (key : string) (fallback : string)
  : result string :=
  match get w meta key with
  | Undefined | Data JNull => Ok fallback
  | Data v =>
      match String_ v with
      | Ok str => Ok (or_fallback str fallback)
      | Err e => Err e
      end
  | Inherited text => Ok (or_fallback text fallback)
  end.

Definition nl : string := String "010"%char "".

Definition USAGE : string :=
  "Usage:" ++ nl ++
  "  node render.js <temp_dir> [out.pdf] [--html /path/to/report.html]" ++ nl ++ nl ++
  "Assumptions:" ++ nl ++
  "  <temp_dir>/tricho_data.json" ++ nl ++
  "  <temp_dir>/filtered_images/*.png            # 本人（B）" ++ nl ++
  "Output:" ++ nl ++
  "  PDF => parent(<temp_dir>)/report-YYYYMMDD-HHMMSS.pdf  (or specified name)".

(** The second argument of [path.join] in the computation of [outPath]. *)
Definition outName (w : World) (outNameMaybe : option string) : string :=
  match outNameMaybe with
  | Some n =>
      if truthy_string n
         && String.eqb (toLowerCase (NodePath.extname (platform w) n)) ".pdf"
      then n
      else "report-" ++ ts (new_Date w) ++ ".pdf"
  | None => "report-" ++ ts (new_Date w) ++ ".pdf"
  end.

(** [flags.html] used as a condition. *)
Definition truthy_flag (html : option string) : bool :=
  match html with
  | Some h => truthy_string h
  | None => false
  end.

Definition htmlPath_of (w : World) (html : option string) : string :=
  match html with
  | Some h => if truthy_flag html then path_resolve w [h] else DEFAULT_HTML_PATH w
  | None => DEFAULT_HTML_PATH w
  end.

Definition outPath_of (w : World) (tempDir : string) (outNameMaybe : option string)
  : string :=
  let parentDir := path_dirname w tempDir in
  path_join w [parentDir; outName w outNameMaybe].

Definition THRESHOLDS : thresholds_t :=
  {| thin60 := 3 # 10; ratio_max := 18 # 10; ultra30 := 15 # 100 |}.

(** The function handed to [page.evaluate], run in the page. *)
Definition in_page (w : World) (payload : payload_t) : result unit :=
  match window_renderReportFromJson w with
  | None => Err (Error "renderReportFromJson() not found on page")
  | Some f => f (data payload) (opts payload)
  end.

(** The body of [main] once the output path is known (lines 90 to 198). *)
Definition render (w : World) (html : option string) (tempDir htmlPath outPath : string)
  : M unit :=
  emit (ConsoleLog [AStr "=== Tricho Report Render ==="]) ;;
  emit (ConsoleLog [AStr "temp_dir        :"; AStr tempDir]) ;;
  emit (ConsoleLog [AStr "html            :"; AStr htmlPath;
                    AStr (if truthy_flag html then "(override)" else "(default)")]) ;;
  emit (ConsoleLog [AStr "pdf_out         :"; AStr outPath]) ;;
  emit (ConsoleLog [AStr "▶ Checking inputs..."]) ;;
  let dataJsonPath := path_join w [tempDir; "tricho_data.json"] in
  catch (call (FsAccess dataJsonPath) (fs_access w dataJsonPath))
        (fun _ => emit (ConsoleError [AStr "✗ Missing file:"; AStr dataJsonPath]) ;;
                  process_exit 1) ;;
  catch (call (FsAccess htmlPath) (fs_access w htmlPath))
        (fun _ => emit (ConsoleError [AStr "✗ Missing HTML:"; AStr htmlPath]) ;;
                  process_exit 1) ;;
  emit (ConsoleLog [AStr "▶ Reading tricho_data.json ..."]) ;;
  loaded <- readTrichoData w tempDir ;;
  let '(meta, arr) := loaded in
  patientId <- lift (safeMeta w meta "name" "-") ;;
  examDate <- lift (safeMeta w meta "appointment_date" (toLocaleString_ja_JP w)) ;;
  emit (ConsoleLog [AStr "  patientId     :"; AStr patientId]) ;;
  emit (ConsoleLog [AStr "  examDate      :"; AStr examDate]) ;;
  emit (ConsoleLog [AStr "  regions(count):"; ANum (length arr)]) ;;
  let patientImagesDir := path_join w [tempDir; "filtered_images"] in
  let normalImagesDir := path_join w [__dirname w; "normal_images"] in
  emit (ConsoleLog [AStr "  images.A(normal):"; AStr normalImagesDir]) ;;
  emit (ConsoleLog [AStr "  images.B(patient):"; AStr patientImagesDir]) ;;
  emit (ConsoleLog [AStr "▶ Launching browser..."]) ;;
  call (Launch ["--no-sandbox"; "--disable-setuid-sandbox"] "new") (puppeteer_launch w) ;;
  call NewPage (browser_newPage w) ;;
  emit PageOnConsole ;;
  emit (ConsoleLog [AStr "▶ Loading HTML ..."]) ;;
  let url := pathToFileURL_href w htmlPath in
  call (Goto url "domcontentloaded") (page_goto w url) ;;
  let images := {| normalBaseUrl := toBaseUrl w normalImagesDir;
                   patientBaseUrl := toBaseUrl w patientImagesDir |} in
  emit (ConsoleLog [AStr "▶ Injecting data & rendering ..."]) ;;
  emit (ConsoleTime "render:evaluate") ;;
  let payload :=
    {| data := arr;
       opts := {| patientId := patientId; examDate := examDate;
                  thresholds := THRESHOLDS; images := images |} |} in
  call (Evaluate payload) (in_page w payload) ;;
  emit (ConsoleTimeEnd "render:evaluate") ;;
  emit (ConsoleLog [AStr "▶ Waiting for DOM to settle (logic table) ..."]) ;;
  catch (call (WaitForSelector "#mini tbody tr" 8000)
              (page_waitForSelector w "#mini tbody tr" 8000))
        (fun _ => ret tt) ;;
  cardCount <- catch (call (EvalCount ".card") (page_count w ".card"))
                     (fun _ => ret 0%nat) ;;
  emit (ConsoleLog [AStr "  cards rendered:"; ANum cardCount]) ;;
  emit (ConsoleLog [AStr "▶ Exporting PDF ..."]) ;;
  emit (ConsoleTime "pdf:write") ;;
  call (EmulateMediaType "screen") (page_emulateMediaType w "screen") ;;
  let o := {| path := outPath; printBackground := true; preferCSSPageSize := true |} in
  call (Pdf o) (page_pdf w o) ;;
  emit (ConsoleTimeEnd "pdf:write") ;;
  call BrowserClose (browser_close w) ;;
  emit (ConsoleLog [AStr "✔ Done. Saved:"; AStr outPath]).

(** [main], on the arguments after [node render.js]. *)
Definition main (w : World) (raw : list string) : M unit :=
  let '(html, positional) := parseArgs raw in
  match positional with
  | [] => emit (ConsoleError [AStr USAGE]) ;; process_exit 1
  | p0 :: rest =>
      let tempDir := path_resolve w [p0] in
      let outNameMaybe := head rest in
      let htmlPath := htmlPath_of w html in
      let outPath := outPath_of w tempDir outNameMaybe in
      render w html tempDir htmlPath outPath
  end.

(** The handler of the last line: [e => { console.error(...); process.exit(1) }]. *)
Definition top_handler (e : error) : M unit :=
  emit (ConsoleError [AStr "✗ Error:"; AErr e]) ;; process_exit 1.

(** The program: [main().catch(...)]. *)
Definition program (w : World) (raw : list string) : M unit :=
  catch (main w raw) top_handler.

(** The status the process ends with: 0 when the program runs to its end. *)
Definition exit_status {A} (o : outcome A) : Z :=
  match o with
  | Returns _ => 0
  | Exits code => code
  | Throws _ => 1
  end.

Definition run (w : World) (raw : list string) : list event * Z :=
  let '(t, o) := program w raw in (t, exit_status o).

End Render.

(* ================================================================== *)
(** ** newest_folder_getter.ps1 *)
(* ================================================================== *)

Module NewestFolderGetter.

(** An entry of a directory; [LastWriteTime] in ticks. *)
Record FileSystemInfo := {
  FullName : string;
  Name : string;
  LastWriteTime : Z;
  IsDirectory : bool
}.

Record Host := {
  (* the entries of a directory, nothing when it cannot be listed *)
  Get_ChildItem : string -> list FileSystemInfo;
  ToShortDateString : Z -> string
}.

Definition baseDir : string := "C:\ProgramData\Canfield\Databases\HairMetrixDB".

Definition ticksPerDay : Z := 864000000000.

(** [$d.Date]: the same day at 0:00. *)
Definition Date (ticks : Z) : Z := ticks - ticks mod ticksPerDay.

(** [Get-Date "2025-07-20"]. *)
Definition targetDate_literal : Z := 739451 * ticksPerDay.

(** [-Filter *.pdf]: the name ends in ".pdf", letter case ignored. *)
Definition Filter_pdf (f : FileSystemInfo) : bool :=
  String.prefix (Js.rev_string ".pdf") (Js.rev_string (Js.toLowerCase (Name f))).

(** [Sort-Object LastWriteTime -Descending], by insertion. *)
Fixpoint insert_desc (x : FileSystemInfo) (l : list FileSystemInfo)
  : list FileSystemInfo :=
  match l with
  | [] => [x]
  | y :: l' =>
      if (LastWriteTime y <=? LastWriteTime x)%Z then x :: l
      else y :: insert_desc x l'
  end.

Definition Sort_Object_Descending (l : list FileSystemInfo) : list FileSystemInfo :=
  fold_right insert_desc [] l.

(** [Get-ChildItem -Path $p]: a null path lists nothing. *)
Definition children (h : Host) (p : option string) : list FileSystemInfo :=
  match p with
  | Some dir => Get_ChildItem h dir
  | None => []
  end.

Definition latestFolder (h : Host) (dir : string) : option string :=
  FullName <$>
    head (Sort_Object_Descending
            (List.filter (fun f => IsDirectory f) (Get_ChildItem h dir))).

Definition newestFile (h : Host) (folder : option string) (targetDate : Z)
  : option FileSystemInfo :=
  head (Sort_Object_Descending
          (List.filter (fun f => (Date targetDate <=? LastWriteTime f)%Z)
             (List.filter (fun f => negb (IsDirectory f) && Filter_pdf f)
                (children h folder)))).

(** The value the script returns. *)
Definition report (h : Host) (folder : option string) (targetDate : Z) : string :=
  match newestFile h folder targetDate with
  | Some f => FullName f
  | None => ToShortDateString h targetDate ++ " has no report"
  end.

Definition script (h : Host) : string :=
  report h (latestFolder h baseDir) targetDate_literal.

(** *** Vocabulary of the properties *)

(** [f] is a PDF file of [dir] last written at or after 0:00 of the day of
    [targetDate]. *)
Definition is_match (h : Host) (dir : string) (targetDate : Z) (f : FileSystemInfo)
  : Prop :=
  In f (Get_ChildItem h dir) /\ IsDirectory f = false /\ Filter_pdf f = true
  /\ (Date targetDate <= LastWriteTime f)%Z.

(** [a] was written no earlier than [b]. *)
Definition newer_or_same (a b : FileSystemInfo) : Prop :=
  (LastWriteTime b <= LastWriteTime a)%Z.

Definition sample_file (name : string) (time : Z) : FileSystemInfo :=
  {| FullName := "C:\case\" ++ name; Name := name;
     LastWriteTime := time; IsDirectory := false |}.

(** A folder with two reports after the threshold, an older one, a text
    file and a subfolder. *)
Definition sample_host : Host :=
  {| Get_ChildItem := fun _ =>
       [ sample_file "old.pdf" (targetDate_literal - 1);
         sample_file "first.pdf" (targetDate_literal + 10);
         sample_file "notes.txt" (targetDate_literal + 50);
         sample_file "SECOND.PDF" (targetDate_literal + 20);
         {| FullName := "C:\case\sub.pdf"; Name := "sub.pdf";
            LastWriteTime := targetDate_literal + 99; IsDirectory := true |} ];
     ToShortDateString := fun _ => "2025/07/20" |}.

Definition empty_host : Host :=
  {| Get_ChildItem := fun _ => []; ToShortDateString := fun _ => "2025/07/20" |}.

(** A database directory with two case folders; the newer one holds two
    reports written after the threshold, the older one a later report. *)
Definition sample_database : Host :=
  let entry := fun (dir name : string) (time : Z) (folder : bool) =>
    {| FullName := dir ++ "\" ++ name; Name := name;
       LastWriteTime := time; IsDirectory := folder |} in
  {| Get_ChildItem := fun p =>
       if String.eqb p baseDir then
         [ entry baseDir "case1" (targetDate_literal + 5)%Z true;
           entry baseDir "case2" (targetDate_literal + 7)%Z true ]
       else if String.eqb p (baseDir ++ "\case2") then
         [ entry p "a.pdf" (targetDate_literal + 1)%Z false;
           entry p "b.pdf" (targetDate_literal + 3)%Z false ]
       else if String.eqb p (baseDir ++ "\case1") then
         [ entry p "late.pdf" (targetDate_literal + 9)%Z false ]
       else [];
     ToShortDateString := fun _ => "2025/07/20" |}.

(** [f] is a subfolder of [dir]. *)
Definition is_subfolder (h : Host) (dir : string) (f : FileSystemInfo) : Prop :=
  In f (Get_ChildItem h dir) /\ IsDirectory f = true.

End NewestFolderGetter.

(* ================================================================== *)
(** ** Vocabulary of the properties *)
(* ================================================================== *)

Module Props.
Import Js Render.

(** *** Output names *)

Definition is_digit (a : ascii) : bool :=
  let n := nat_of_ascii a in ((48 <=? n) && (n <=? 57))%nat.

(** [s] without its first [n] characters, when they are [n] digits. *)
Fixpoint take_digits (n : nat) (s : string) : option string :=
  match n with
  | O => Some s
  | S n' =>
      match s with
      | String a r => if is_digit a then take_digits n' r else None
      | EmptyString => None
      end
  end.

Fixpoint strip_prefix (p s : string) : option string :=
  match p with
  | EmptyString => Some s
  | String a p' =>
      match s with
      | String b r => if Ascii.eqb a b then strip_prefix p' r else None
      | EmptyString => None
      end
  end.

(** The pattern report-YYYYMMDD-HHMMSS.pdf. *)
Definition is_generated_name (s : string) : bool :=
  match r1 ← strip_prefix "report-" s; r2 ← take_digits 8 r1;
        r3 ← strip_prefix "-" r2; take_digits 6 r3 with
  | Some r => String.eqb r ".pdf"
  | None => false
  end.

(** The local function [z] of [ts]. *)
Definition z2 (n : nat) : string := padStart (String_nat n) 2 "0".

Definition two_digits (s : string) : bool :=
  match take_digits 2 s with
  | Some r => String.eqb r ""
  | None => false
  end.

Definition four_digits (s : string) : bool :=
  match take_digits 4 s with
  | Some r => String.eqb r ""
  | None => false
  end.

(** The fields of a [Date] lie in their calendar ranges. *)
Definition valid_Date (d : Date) : Prop :=
  (getMonth d < 12 /\ 1 <= getDate d <= 31 /\ getHours d < 24
   /\ getMinutes d < 60 /\ getSeconds d < 60)%nat.

(** The letter casings of ".pdf". *)
Definition pdf_casings : list string :=
  [".pdf"; ".pdF"; ".pDf"; ".pDF"; ".Pdf"; ".PdF"; ".PDf"; ".PDF"].

(** The caller's name carries a PDF extension. *)
Definition has_pdf_extension (w : World) (name : string) : Prop :=
  In (NodePath.extname (platform w) name) pdf_casings.

(** *** Metadata *)

(** The value has a string form: it holds no object with a [toString] key of
    its own. *)
Fixpoint convertible (v : value) : bool :=
  match v with
  | JArr l => forallb convertible l
  | JObj m => match m !! "toString" with Some _ => false | None => true end
  | JNull | JBool _ | JNum _ | JStr _ => true
  end.

(** The normalization as the specification words it, at one mapping, key
    and fallback: the fallback for an absent or [null] stored value, and for
    any other one its trimmed string form, or the fallback when that is
    empty. *)
Definition normalizes_as_stated (w : World) (m : gmap string value)
    (key fallback : string) : Prop :=
  (m !! key = None \/ m !! key = Some JNull ->
     safeMeta w (JObj m) key fallback = Ok fallback)
  /\ (forall v, m !! key = Some v -> v <> JNull ->
        exists str, String_ v = Ok str
                    /\ safeMeta w (JObj m) key fallback = Ok (or_fallback str fallback)).

(** *** Runs *)

Definition trace_of (w : World) (raw : list string) : list event := fst (run w raw).
Definition status_of (w : World) (raw : list string) : Z := snd (run w raw).

Definition is_err {A} (r : result A) : bool :=
  match r with Ok _ => false | Err _ => true end.

(** The answer the surroundings give to a logged call is a failure. *)
Definition answer_fails (w : World) (e : event) : bool :=
  match e with
  | FsAccess p => is_err (fs_access w p)
  | FsReadFile p _ => is_err (fs_readFile w p)
  | Launch _ _ => is_err (puppeteer_launch w)
  | NewPage => is_err (browser_newPage w)
  | Goto url _ => is_err (page_goto w url)
  | Evaluate payload => is_err (in_page w payload)
  | WaitForSelector sel t => is_err (page_waitForSelector w sel t)
  | EvalCount sel => is_err (page_count w sel)
  | EmulateMediaType t => is_err (page_emulateMediaType w t)
  | Pdf o => is_err (page_pdf w o)
  | BrowserClose => is_err (browser_close w)
  | ConsoleLog _ | ConsoleError _ | ConsoleTime _ | ConsoleTimeEnd _
  | PageOnConsole => false
  end.

Definition is_Launch (e : event) : bool :=
  match e with Launch _ _ => true | _ => false end.

Definition is_Evaluate (e : event) : bool :=
  match e with Evaluate _ => true | _ => false end.

Definition is_WaitForSelector (e : event) : bool :=
  match e with WaitForSelector _ _ => true | _ => false end.

Definition is_EvalCount (e : event) : bool :=
  match e with EvalCount _ => true | _ => false end.

Definition is_BrowserClose (e : event) : bool :=
  match e with BrowserClose => true | _ => false end.

Definition is_Pdf (e : event) : bool :=
  match e with Pdf _ => true | _ => false end.

(** The run got a browser: [puppeteer.launch] was called and answered. *)
Definition acquired (w : World) (t : list event) : Prop :=
  existsb is_Launch t = true /\ puppeteer_launch w = Ok tt.

(** The run called [browser.close]. *)
Definition released (t : list event) : Prop := existsb is_BrowserClose t = true.

(** The export wrote the file: [page.pdf] was called for [p] and answered. *)
Definition exported (w : World) (t : list event) (p : string) : Prop :=
  let o := {| path := p; printBackground := true; preferCSSPageSize := true |} in
  In (Pdf o) t /\ page_pdf w o = Ok tt.

(** A run of [m] under the handler of the last line. *)
Definition finish (m : M unit) : list event * Z :=
  let '(t, o) := catch m top_handler in (t, exit_status o).

Definition is_null (v : value) : bool :=
  match v with JNull => true | _ => false end.

(** The trace from the first event that satisfies [p] on. *)
Fixpoint from_first (p : event -> bool) (t : list event) : list event :=
  match t with
  | [] => []
  | e :: t' => if p e then t else from_first p t'
  end.

(** The teardown as the specification words it: a run that got a browser
    calls [browser.close]. *)
Definition released_on_every_path (w : World) (raw : list string) : Prop :=
  acquired w (trace_of w raw) -> released (trace_of w raw).

(** The call is a wait for a selector that ran into its timeout. *)
Definition timed_out (w : World) (e : event) : bool :=
  match e with
  | WaitForSelector sel ms =>
      match page_waitForSelector w sel ms with
      | Err (TimeoutError _) => true
      | _ => false
      end
  | _ => false
  end.

(** Failure handling as the specification words it: a failed call other
    than a settle wait that timed out ends the run with a non-zero status. *)
Definition only_timeout_swallowed (w : World) (raw : list string) : Prop :=
  forall e, In e (trace_of w raw) -> answer_fails w e = true ->
            timed_out w e = false -> status_of w raw <> 0%Z.

(** *** The data file *)

(** The metadata and the regions of a parsed data file, as [readTrichoData]
    takes them from it. *)
Definition meta_of (json : value) : value :=
  let m := own_property json "report_metadata" in
  match m with
  | Some v => if truthy m then v else JObj ∅
  | None => JObj ∅
  end.

Definition regions_of (json : value) : list value :=
  match own_property json "tricho_analysis" with
  | Some (JArr l) => l
  | _ => []
  end.

(** The array key is absent, or bound to a value that is no array. *)
Definition no_array (json : value) : Prop :=
  own_property json "tricho_analysis" = None
  \/ exists v, own_property json "tricho_analysis" = Some v /\ forall l, v <> JArr l.

(** The handling of a missing array as the specification words it, for a
    run on a bundle directory: when the data file parses to a value without
    the array, the loader returns an empty region sequence and the run has no
    fatal error, that is, a status other than 0 is caused by a call that
    failed. *)
Definition missing_array_tolerated (w : World) (raw : list string) : Prop :=
  forall html p0 rest text json,
    parseArgs raw = (html, p0 :: rest) ->
    fs_readFile w (path_join w [path_resolve w [p0]; "tricho_data.json"]) = Ok text ->
    JSON_parse w text = Ok json ->
    no_array json ->
    (exists meta, snd (readTrichoData w (path_resolve w [p0])) = Returns (meta, []))
    /\ (status_of w raw <> 0%Z ->
        exists e, In e (trace_of w raw) /\ answer_fails w e = true).

(** *** Sample surroundings *)

Definition sample_join (segs : list string) : string := String.concat "/" segs.

Definition sample_dirname (p : string) : string :=
  match p with
  | "/cases/c1" => "/cases"
  | _ => "."
  end.

Definition sample_date : Date :=
  {| getFullYear := 2025; getMonth := 6; getDate := 20;
     getHours := 9; getMinutes := 5; getSeconds := 0 |}.

Definition sample_region (id : string) : value :=
  JObj {[ "region" := JStr id ]}.

Definition sample_json : value :=
  JObj {[ "report_metadata" := JObj {[ "name" := JStr " P-001 " ]};
          "tricho_analysis" := JArr [sample_region "a"; sample_region "b"] ]}.

(** A runtime whose arrays, strings, numbers and booleans inherit the members
    of [Object.prototype], with the constructor and the prototype of their
    own kind. *)
Definition sample_member (p : prototype) (key : string) : option string :=
  if String.eqb key "constructor" then
    Some (native match p with
                 | Array_prototype => "Array"
                 | String_prototype => "String"
                 | Number_prototype => "Number"
                 | Boolean_prototype => "Boolean"
                 end)
  else if String.eqb key "__proto__" then
    Some match p with
         | Array_prototype | String_prototype => ""
         | Number_prototype => "0"
         | Boolean_prototype => "false"
         end
  else Object_prototype key.

(** Surroundings in which every call answers, but for the given answers. *)
Definition sample_world (d : Date) (access : string -> result unit) (json : value)
    (goto wait : result unit) (count : result nat) : World :=
  {| platform := NodePath.posix;
     __dirname := "/app";
     path_resolve := sample_join;
     path_join := sample_join;
     path_dirname := sample_dirname;
     pathToFileURL_href := fun p => "file://" ++ p;
     JSON_parse := fun _ => Ok json;
     prototype_member := sample_member;
     new_Date := d;
     toLocaleString_ja_JP := "2025/7/20 9:05:00";
     fs_access := access;
     fs_readFile := fun _ => Ok "{}";
     puppeteer_launch := Ok tt;
     browser_newPage := Ok tt;
     page_goto := fun _ => goto;
     window_renderReportFromJson := Some (fun _ _ => Ok tt);
     page_waitForSelector := fun _ _ => wait;
     page_count := fun _ => count;
     page_emulateMediaType := fun _ => Ok tt;
     page_pdf := fun _ => Ok tt;
     browser_close := Ok tt |}.

Definition all_present : string -> result unit := fun _ => Ok tt.

Definition w_ok : World :=
  sample_world sample_date all_present sample_json (Ok tt) (Ok tt) (Ok 2%nat).

(** The template does not load. *)
Definition w_goto_fails : World :=
  sample_world sample_date all_present sample_json
    (Err (Error "net::ERR_FILE_NOT_FOUND")) (Ok tt) (Ok 2%nat).

(** The table row never shows up. *)
Definition w_wait_times_out : World :=
  sample_world sample_date all_present sample_json (Ok tt)
    (Err (TimeoutError "Waiting for selector `#mini tbody tr` failed: 8000ms exceeded"))
    (Ok 0%nat).

(** The settle wait is rejected before its timeout. *)
Definition w_wait_rejected : World :=
  sample_world sample_date all_present sample_json (Ok tt)
    (Err (Error "Execution context was destroyed")) (Ok 0%nat).

(** The card count is rejected. *)
Definition w_count_fails : World :=
  sample_world sample_date all_present sample_json (Ok tt) (Ok tt)
    (Err (Error "Execution context was destroyed")).

(** The data file is not there. *)
Definition w_no_data : World :=
  sample_world sample_date
    (fun p => if String.eqb p "/cases/c1/tricho_data.json"
              then Err (SystemError "ENOENT") else Ok tt)
    sample_json (Ok tt) (Ok tt) (Ok 2%nat).

(** The clock reads a year of three digits. *)
Definition w_year_999 : World :=
  sample_world
    {| getFullYear := 999; getMonth := 0; getDate := 1;
       getHours := 0; getMinutes := 0; getSeconds := 0 |}
    all_present sample_json (Ok tt) (Ok tt) (Ok 2%nat).

(** The data file holds an object without the array. *)
Definition w_no_array : World :=
  sample_world sample_date all_present
    (JObj {[ "tricho_analysis" := JStr "none" ]}) (Ok tt) (Ok tt) (Ok 0%nat).

(** *** Arguments *)

(** No argument of [l] is the flag. *)
Definition flag_free (l : list string) : Prop := ~ In "--html" l.

(** *** The browser calls of a run *)

Inductive step :=
| SLaunch | SNewPage | SOnConsole | SGoto | SEvaluate
| SWait | SCount | SEmulate | SPdf | SClose.

Definition step_of (e : event) : option step :=
  match e with
  | Launch _ _ => Some SLaunch
  | NewPage => Some SNewPage
  | PageOnConsole => Some SOnConsole
  | Goto _ _ => Some SGoto
  | Evaluate _ => Some SEvaluate
  | WaitForSelector _ _ => Some SWait
  | EvalCount _ => Some SCount
  | EmulateMediaType _ => Some SEmulate
  | Pdf _ => Some SPdf
  | BrowserClose => Some SClose
  | ConsoleLog _ | ConsoleError _ | ConsoleTime _ | ConsoleTimeEnd _
  | FsAccess _ | FsReadFile _ _ => None
  end.

(** The browser calls of a trace, in the order made. *)
Definition steps_of (t : list event) : list step := omap step_of t.

Definition is_ConsoleError (e : event) : bool :=
  match e with ConsoleError _ => true | _ => false end.

Definition is_Goto (e : event) : bool :=
  match e with Goto _ _ => true | _ => false end.

(** The browser calls of [main], in program order. *)
Definition pipeline : list step :=
  [SLaunch; SNewPage; SOnConsole; SGoto; SEvaluate; SWait; SCount; SEmulate;
   SPdf; SClose].

(** The run ends with status 1 before a browser is started, the last line
    of the trace being the report of [e] by the handler of the last line. *)
Definition fatal_before_launch (w : World) (raw : list string) (e : error) : Prop :=
  status_of w raw = 1%Z
  /\ existsb is_Launch (trace_of w raw) = false
  /\ existsb is_Pdf (trace_of w raw) = false
  /\ last (trace_of w raw) = Some (ConsoleError [AStr "✗ Error:"; AErr e]).

(** [w] with a page that does not define the entry point. *)
Definition without_entry_point (w : World) : World :=
  {| platform := platform w;
     __dirname := __dirname w;
     path_resolve := path_resolve w;
     path_join := path_join w;
     path_dirname := path_dirname w;
     pathToFileURL_href := pathToFileURL_href w;
     JSON_parse := JSON_parse w;
     prototype_member := prototype_member w;
     new_Date := new_Date w;
     toLocaleString_ja_JP := toLocaleString_ja_JP w;
     fs_access := fs_access w;
     fs_readFile := fs_readFile w;
     puppeteer_launch := puppeteer_launch w;
     browser_newPage := browser_newPage w;
     page_goto := page_goto w;
     window_renderReportFromJson := None;
     page_waitForSelector := page_waitForSelector w;
     page_count := page_count w;
     page_emulateMediaType := page_emulateMediaType w;
     page_pdf := page_pdf w;
     browser_close := browser_close w |}.

(** The data file holds [null]. *)
Definition w_null_file : World :=
  sample_world sample_date all_present JNull (Ok tt) (Ok tt) (Ok 0%nat).

(** The data file holds no array, and a name that has no string form. *)
Definition w_unconvertible_name : World :=
  sample_world sample_date all_present
    (JObj {[ "report_metadata" :=
               JObj {[ "name" := JObj {[ "toString" := JNum "1" ]} ]} ]})
    (Ok tt) (Ok tt) (Ok 0%nat).

(** The data file holds an object without metadata. *)
Definition w_no_metadata : World :=
  sample_world sample_date all_present
    (JObj {[ "tricho_analysis" := JArr [] ]}) (Ok tt) (Ok tt) (Ok 0%nat).

End Props.

(* ================================================================== *)
(** ** Properties of the string primitives *)
(* ================================================================== *)

Import Js Render Props.
#[local] Open Scope js_scope.

Example extname_samples :
  map (NodePath.extname NodePath.posix)
      ["index.html"; "index.coffee.md"; "index."; "index"; ".index"; ".index.md";
       ".."; "a.pdf/"; "dir.d/out"; "out.PDF"; ".pdf"; ""]
  = [".html"; ".md"; "."; ""; ""; ".md"; ""; ".pdf"; ""; ".PDF"; ""; ""].
Proof. vm_compute. reflexivity. Qed.

Example extname_win32_samples :
  map (NodePath.extname NodePath.win32) ["C:a.pdf"; "C:.pdf"; "a\b.PDF"; "a.b\c"]
  = [".pdf"; ""; ".PDF"; ""].
Proof. vm_compute. reflexivity. Qed.

Example trim_samples :
  map trim ["  P-001 "; "   "; ""; "a  b"] = ["P-001"; ""; ""; "a  b"].
Proof. vm_compute. reflexivity. Qed.

Lemma extname_empty p : NodePath.extname p "" = "".
Proof. destruct p; reflexivity. Qed.

(** A character that lowers to a lower-case letter is that letter or its
    capital. *)
Lemma lower_ascii_inv (a b : ascii) :
  lower_ascii a = b ->
  a = b \/ (a = ascii_of_nat (nat_of_ascii b - 32)
            /\ (97 <=? nat_of_ascii b)%nat && (nat_of_ascii b <=? 122)%nat = true).
Proof.
  intros <-.
  destruct a as [[] [] [] [] [] [] [] []]; vm_compute; auto.
Qed.

(** The strings that lower to ".pdf" are its eight letter casings. *)
Lemma toLowerCase_pdf_iff (e : string) :
  toLowerCase e = ".pdf" <-> In e pdf_casings.
Proof.
  split.
  - intros H.
    destruct e as [|a [|b [|c [|d [|? ?]]]]]; simpl in H; try discriminate.
    injection H as Ha Hb Hc Hd.
    apply lower_ascii_inv in Ha, Hb, Hc, Hd.
    destruct Ha as [-> | [-> Ha]]; [| discriminate Ha].
    destruct Hb as [-> | [-> _]], Hc as [-> | [-> _]], Hd as [-> | [-> _]];
      vm_compute; tauto.
  - intros H. unfold pdf_casings in H. simpl in H.
    repeat (destruct H as [<- | H]; [reflexivity |]). destruct H.
Qed.

Lemma truthy_string_iff s : truthy_string s = true <-> s <> "".
Proof.
  unfold truthy_string. destruct (String.eqb_spec s ""); simpl; split; intros; congruence.
Qed.

(* ================================================================== *)
(** ** Metadata normalization *)
(* ================================================================== *)

(** [String(v)] throws exactly on the values that hold an object with a
    [toString] key of its own. *)
Lemma String_throws_iff (v : value) :
  (exists e, String_ v = Err e) <-> convertible v = false.
Proof.
  revert v. fix IH 1. intros v. destruct v as [| [] | r | s | l | m]; cbn [String_ convertible].
  - split; [intros [e H]; discriminate | discriminate].
  - split; [intros [e H]; discriminate | discriminate].
  - split; [intros [e H]; discriminate | discriminate].
  - split; [intros [e H]; discriminate | discriminate].
  - split; [intros [e H]; discriminate | discriminate].
  - induction l as [| a l IHl]; cbn [map sequence forallb].
    + split; [intros [e H]; discriminate | discriminate].
    + assert (Ha : (exists e, match a with JNull => Ok "" | _ => String_ a end = Err e)
                   <-> convertible a = false).
      { pose proof (IH a) as IHa. destruct a; try exact IHa.
        cbn. split; [intros [e H]; discriminate | discriminate]. }
      destruct (match a with JNull => Ok "" | _ => String_ a end) as [s | e] eqn:Ea.
      * assert (Hc : convertible a = true).
        { destruct (convertible a); [reflexivity |].
          destruct Ha as [_ Ha]. destruct (Ha eq_refl) as [e He]. discriminate. }
        rewrite Hc. cbn [andb]. rewrite <- IHl.
        destruct (sequence _) as [ss | e]; split; intros [e' H]; try discriminate;
          by exists e'.
      * assert (Hc : convertible a = false) by (apply Ha; by exists e).
        rewrite Hc. cbn [andb]. split; [reflexivity | intros _; by exists e].
  - destruct (m !! "toString") as [x |] eqn:E; cbn.
    + split; [reflexivity | intros _; by eexists].
    + split; [intros [e H]; discriminate | discriminate].
Qed.

Section SafeMeta.
Context (w : World) (m : gmap string value) (key fallback : string).

Lemma get_object :
  get w (JObj m) key =
  match m !! key with
  | Some v => Data v
  | None => match Object_prototype key with
            | Some text => Inherited text
            | None => Undefined
            end
  end.
Proof. reflexivity. Qed.

Lemma safeMeta_absent :
  m !! key = None -> Object_prototype key = None ->
  safeMeta w (JObj m) key fallback = Ok fallback.
Proof. intros H Hk. unfold safeMeta. rewrite get_object, H, Hk. reflexivity. Qed.

Lemma safeMeta_inherited text :
  m !! key = None -> Object_prototype key = Some text ->
  safeMeta w (JObj m) key fallback = Ok (or_fallback text fallback).
Proof. intros H Hk. unfold safeMeta. rewrite get_object, H, Hk. reflexivity. Qed.

Lemma safeMeta_null :
  m !! key = Some JNull -> safeMeta w (JObj m) key fallback = Ok fallback.
Proof. intros H. unfold safeMeta. rewrite get_object, H. reflexivity. Qed.

Lemma safeMeta_stored v :
  m !! key = Some v -> v <> JNull ->
  safeMeta w (JObj m) key fallback =
  match String_ v with
  | Ok str => Ok (or_fallback str fallback)
  | Err e => Err e
  end.
Proof.
  intros H Hn. unfold safeMeta. rewrite get_object, H. destruct v; congruence.
Qed.

Lemma or_fallback_blank str : trim str = "" -> or_fallback str fallback = fallback.
Proof. intros H. unfold or_fallback. rewrite H. reflexivity. Qed.

Lemma or_fallback_text str : trim str <> "" -> or_fallback str fallback = trim str.
Proof.
  intros H. unfold or_fallback. apply truthy_string_iff in H. rewrite H. reflexivity.
Qed.

Lemma safeMeta_same_binding (m' : gmap string value) :
  m' !! key = m !! key ->
  safeMeta w (JObj m') key fallback = safeMeta w (JObj m) key fallback.
Proof. intros H. unfold safeMeta, get. cbn [own_property]. rewrite H. reflexivity. Qed.

End SafeMeta.

(** C4 (as stated, refuted).  The normalization as the specification words
    it fails at a key the mapping does not bind but [Object.prototype] does:
    for the empty mapping and the key [constructor], [safeMeta] returns the
    text of the inherited constructor, not the fallback.  It fails as well at
    a stored value that has no string form: for a name bound to an object
    with a [toString] key of its own, [safeMeta] throws. *)
Lemma normalization_fails_on_inherited_key :
  ~ normalizes_as_stated w_ok ∅ "constructor" "-"
  /\ ~ normalizes_as_stated w_ok
         {[ "name" := JObj {[ "toString" := JNum "1" ]} ]} "name" "-".
Proof.
  split.
  - intros [H _]. specialize (H (or_introl eq_refl)). vm_compute in H. discriminate H.
  - intros [_ H].
    destruct (H (JObj {[ "toString" := JNum "1" ]})) as (str & Hs & _);
      [reflexivity | discriminate |].
    vm_compute in Hs. discriminate Hs.
Qed.

(** C4 (amended).  For every metadata mapping [m], key and fallback:
    [safeMeta] returns the fallback when the key is absent and names no
    member of [Object.prototype], when the stored value is [null], and when
    its string form trims to the empty string; it returns the trimmed string
    form of any other stored value that has a string form, and throws the
    error of [String(v)] for one that has none, which are the values that
    hold an object with a [toString] key of its own.  An absent key that
    names a member of [Object.prototype] is normalized from the text of that
    member.  The result depends on the binding of [key] alone: binding or
    removing any other field leaves it unchanged. *)
Theorem safeMeta_normalizes (w : World) (m : gmap string value) (key fallback : string) :
  (m !! key = None ->
     (Object_prototype key = None -> safeMeta w (JObj m) key fallback = Ok fallback)
     /\ (forall text, Object_prototype key = Some text ->
           safeMeta w (JObj m) key fallback = Ok (or_fallback text fallback)))
  /\ (m !! key = Some JNull -> safeMeta w (JObj m) key fallback = Ok fallback)
  /\ (forall v str, m !! key = Some v -> v <> JNull -> String_ v = Ok str ->
        (trim str = "" -> safeMeta w (JObj m) key fallback = Ok fallback)
        /\ (trim str <> "" -> safeMeta w (JObj m) key fallback = Ok (trim str)))
  /\ (forall v e, m !! key = Some v -> String_ v = Err e ->
        safeMeta w (JObj m) key fallback = Err e /\ convertible v = false)
  /\ (forall v, m !! key = Some v -> convertible v = false ->
        exists e, safeMeta w (JObj m) key fallback = Err e)
  /\ (forall other v, other <> key ->
        safeMeta w (JObj (<[other:=v]> m)) key fallback = safeMeta w (JObj m) key fallback)
  /\ (forall other, other <> key ->
        safeMeta w (JObj (delete other m)) key fallback = safeMeta w (JObj m) key fallback).
Proof.
  split; [| split; [| split; [| split; [| split; [| split]]]]].
  - intros H. split.
    + intros Hk. by apply safeMeta_absent.
    + intros text Hk. by apply safeMeta_inherited.
  - by apply safeMeta_null.
  - intros v str H Hn Hs. rewrite (safeMeta_stored w m key fallback v H Hn), Hs. split.
    + intros Ht. by rewrite or_fallback_blank.
    + intros Ht. by rewrite or_fallback_text.
  - intros v e H Hs.
    assert (Hn : v <> JNull) by (intros ->; discriminate Hs).
    rewrite (safeMeta_stored w m key fallback v H Hn), Hs.
    split; [reflexivity |]. apply String_throws_iff. by exists e.
  - intros v H Hc. apply String_throws_iff in Hc as [e Hs].
    assert (Hn : v <> JNull) by (intros ->; discriminate Hs).
    exists e. by rewrite (safeMeta_stored w m key fallback v H Hn), Hs.
  - intros other v Hne. apply safeMeta_same_binding. by apply lookup_insert_ne.
  - intros other Hne. apply safeMeta_same_binding. by apply lookup_delete_ne.
Qed.

Example safeMeta_samples :
  let m : gmap string value :=
    {[ "name" := JStr " P-001 "; "appointment_date" := JStr "   ";
       "age" := JNum "42"; "note" := JNull; "tags" := JArr [JStr "a"; JNull; JNum "1"];
       "valueOf" := JObj {[ "toString" := JNull ]} ]} in
  map (fun k => safeMeta w_ok (JObj m) k "-")
      ["name"; "appointment_date"; "age"; "note"; "tags"; "sex"; "valueOf";
       "constructor"; "__proto__"]
  = [Ok "P-001"; Ok "-"; Ok "42"; Ok "-"; Ok "a,,1"; Ok "-";
     Err (TypeError "Cannot convert object to primitive value");
     Ok "function Object() { [native code] }"; Ok "[object Object]"].
Proof. vm_compute. reflexivity. Qed.

(* ================================================================== *)
(** ** The name of the output file *)
(* ================================================================== *)

Lemma has_pdf_extension_nonempty w name : has_pdf_extension w name -> name <> "".
Proof.
  intros H ->. unfold has_pdf_extension in H. rewrite extname_empty in H.
  simpl in H. intuition discriminate.
Qed.

(** A name with a PDF extension, in any letter case, is kept. *)
Lemma outName_honors w name :
  has_pdf_extension w name -> outName w (Some name) = name.
Proof.
  intros H. unfold outName.
  pose proof (has_pdf_extension_nonempty _ _ H) as Hne.
  apply truthy_string_iff in Hne. rewrite Hne.
  apply toLowerCase_pdf_iff in H. rewrite H. reflexivity.
Qed.

(** Any other name, or none, gives the generated name. *)
Lemma outName_generates w o :
  (o = None \/ exists name, o = Some name /\ ~ has_pdf_extension w name) ->
  outName w o = "report-" ++ ts (new_Date w) ++ ".pdf".
Proof.
  intros [-> | (name & -> & H)]; [reflexivity |].
  unfold outName.
  destruct (truthy_string name); [| reflexivity]. simpl.
  destruct (String.eqb_spec (toLowerCase (NodePath.extname (platform w) name)) ".pdf")
    as [E | E]; [| reflexivity].
  exfalso. apply H. by apply toLowerCase_pdf_iff.
Qed.

(** *** The timestamp *)

Lemma ts_unfold d :
  ts d = String_Z (getFullYear d) ++ z2 (getMonth d + 1) ++ z2 (getDate d) ++ "-"
         ++ z2 (getHours d) ++ z2 (getMinutes d) ++ z2 (getSeconds d).
Proof. reflexivity. Qed.

Lemma z2_two_digits_below_100 :
  forallb (fun n => two_digits (z2 n)) (seq 0 100) = true.
Proof. vm_compute. reflexivity. Qed.

(** A number below 100 is written with exactly two digits. *)
Lemma z2_two_digits n : (n < 100)%nat -> two_digits (z2 n) = true.
Proof.
  intros H. pose proof z2_two_digits_below_100 as A.
  rewrite forallb_forall in A. apply A. apply in_seq. lia.
Qed.

Lemma year_four_digits_1000_9999 :
  forallb (fun n => four_digits (String_Z (Z.of_nat n))) (seq 1000 (9 * 1000)) = true.
Proof. vm_compute. reflexivity. Qed.

(** A year from 1000 to 9999 is written with exactly four digits. *)
Lemma year_four_digits y : (1000 <= y <= 9999)%Z -> four_digits (String_Z y) = true.
Proof.
  intros H. pose proof year_four_digits_1000_9999 as A.
  rewrite forallb_forall in A.
  rewrite <- (Z2Nat.id y) by lia. apply A. apply in_seq. lia.
Qed.

Lemma take_digits_app n s r :
  take_digits n s = Some "" -> forall k, take_digits (n + k) (s ++ r) = take_digits k r.
Proof.
  revert s. induction n as [|n IH]; intros s H k; simpl in *.
  - injection H as ->. reflexivity.
  - destruct s as [|a s]; [discriminate |]. simpl.
    destruct (is_digit a); [| discriminate]. by apply IH.
Qed.

Lemma digits_exact n s :
  match take_digits n s with Some r => String.eqb r "" | None => false end = true ->
  take_digits n s = Some "".
Proof.
  destruct (take_digits n s) as [r|]; [| discriminate].
  intros H. apply String.eqb_eq in H. by subst.
Qed.

Lemma string_app_assoc (a b c : string) : (a ++ b) ++ c = a ++ (b ++ c).
Proof.
  induction a as [|x a IH]; [reflexivity |].
  change (String x ((a ++ b) ++ c) = String x (a ++ (b ++ c))). congruence.
Qed.

(** The generated name matches report-YYYYMMDD-HHMMSS.pdf once the year
    has four digits and the other fields two. *)
Lemma generated_name_pattern Y Mo D h mi s :
  four_digits Y = true -> two_digits Mo = true -> two_digits D = true ->
  two_digits h = true -> two_digits mi = true -> two_digits s = true ->
  is_generated_name ("report-" ++ (Y ++ Mo ++ D ++ "-" ++ h ++ mi ++ s) ++ ".pdf") = true.
Proof.
  intros HY HMo HD Hh Hmi Hs.
  apply digits_exact in HY, HMo, HD, Hh, Hmi, Hs.
  rewrite !string_app_assoc.
  unfold is_generated_name.
  change (strip_prefix "report-" ("report-" ++ ?x)) with (Some x).
  cbn [mbind option_bind].
  assert (E1 : take_digits 8 (Y ++ Mo ++ D ++ "-" ++ h ++ mi ++ s ++ ".pdf")
               = Some ("-" ++ h ++ mi ++ s ++ ".pdf")).
  { transitivity (take_digits 4 (Mo ++ D ++ "-" ++ h ++ mi ++ s ++ ".pdf"));
      [exact (take_digits_app 4 Y _ HY 4) |].
    transitivity (take_digits 2 (D ++ "-" ++ h ++ mi ++ s ++ ".pdf"));
      [exact (take_digits_app 2 Mo _ HMo 2) |].
    exact (take_digits_app 2 D _ HD 0). }
  rewrite E1. cbn [mbind option_bind].
  change (strip_prefix "-" ("-" ++ ?x)) with (Some x).
  cbn [mbind option_bind].
  assert (E2 : take_digits 6 (h ++ mi ++ s ++ ".pdf") = Some ".pdf").
  { transitivity (take_digits 4 (mi ++ s ++ ".pdf"));
      [exact (take_digits_app 2 h _ Hh 4) |].
    transitivity (take_digits 2 (s ++ ".pdf"));
      [exact (take_digits_app 2 mi _ Hmi 2) |].
    exact (take_digits_app 2 s _ Hs 0). }
  rewrite E2. reflexivity.
Qed.

Lemma ts_pattern d :
  valid_Date d -> (1000 <= getFullYear d <= 9999)%Z ->
  is_generated_name ("report-" ++ ts d ++ ".pdf") = true.
Proof.
  intros (Hm & Hd & Hh & Hmi & Hs) Hy. rewrite ts_unfold.
  apply generated_name_pattern;
    [ by apply year_four_digits | apply z2_two_digits; lia .. ].
Qed.

(* ================================================================== *)
(** ** Runs of the pipeline *)
(* ================================================================== *)

Lemma member_eq json key :
  member json key =
  if is_null json
  then throw (TypeError ("Cannot read properties of null (reading '" ++ key ++ "')"))
  else ret (own_property json key).
Proof. destruct json; reflexivity. Qed.

(** The next answer of the surroundings the run depends on, in program
    order. *)
Ltac answer :=
  match goal with
  | |- context [match fs_access ?w ?p with Ok _ => _ | Err _ => _ end] =>
      destruct (fs_access w p) as [[]|?] eqn:?
  | |- context [match fs_readFile ?w ?p with Ok _ => _ | Err _ => _ end] =>
      destruct (fs_readFile w p) as [?|?] eqn:?
  | |- context [match JSON_parse ?w ?p with Ok _ => _ | Err _ => _ end] =>
      destruct (JSON_parse w p) as [?|?] eqn:?
  | |- context [member ?j _] => rewrite !(member_eq j); destruct (is_null j) eqn:?
  | |- context [match safeMeta ?w ?m "name" ?f with Ok _ => _ | Err _ => _ end] =>
      destruct (safeMeta w m "name" f) as [?|?] eqn:?
  | |- context [match safeMeta ?w ?m ?k ?f with Ok _ => _ | Err _ => _ end] =>
      destruct (safeMeta w m k f) as [?|?] eqn:?
  | |- context [match puppeteer_launch ?w with Ok _ => _ | Err _ => _ end] =>
      destruct (puppeteer_launch w) as [[]|?] eqn:?
  | |- context [match browser_newPage ?w with Ok _ => _ | Err _ => _ end] =>
      destruct (browser_newPage w) as [[]|?] eqn:?
  | |- context [match page_goto ?w ?u with Ok _ => _ | Err _ => _ end] =>
      destruct (page_goto w u) as [[]|?] eqn:?
  | |- context [match in_page ?w ?p with Ok _ => _ | Err _ => _ end] =>
      destruct (in_page w p) as [[]|?] eqn:?
  | |- context [match page_waitForSelector ?w ?s ?t with Ok _ => _ | Err _ => _ end] =>
      destruct (page_waitForSelector w s t) as [[]|?] eqn:?
  | |- context [match page_count ?w ?s with Ok _ => _ | Err _ => _ end] =>
      destruct (page_count w s) as [?|?] eqn:?
  | |- context [match page_emulateMediaType ?w ?s with Ok _ => _ | Err _ => _ end] =>
      destruct (page_emulateMediaType w s) as [[]|?] eqn:?
  | |- context [match page_pdf ?w ?s with Ok _ => _ | Err _ => _ end] =>
      destruct (page_pdf w s) as [[]|?] eqn:?
  | |- context [match browser_close ?w with Ok _ => _ | Err _ => _ end] =>
      destruct (browser_close w) as [[]|?] eqn:?
  end.

Ltac step :=
  cbn -[own_property get safeMeta in_page toBaseUrl String.append is_null outPath_of
        htmlPath_of USAGE member].

Ltac run_cases := unfold render, readTrichoData; repeat (step; answer); step.

(** Every way [finish m] can go, with its trace [t] and status [c]. *)
Ltac run_as t c :=
  match goal with
  | |- context [finish ?m] =>
      let E := fresh "E" in
      destruct (finish m) as [t c] eqn:E; revert E; unfold finish;
      run_cases; intros E; injection E as <- <-
  end.

(** Membership in an explicit trace, by its position. *)
Ltac in_trace := do 48 (try (left; reflexivity); right).

Lemma run_usage w raw html :
  parseArgs raw = (html, []) -> run w raw = ([ConsoleError [AStr USAGE]], 1%Z).
Proof. intros H. unfold run, program, main. rewrite H. reflexivity. Qed.

Lemma run_args w raw html p0 rest :
  parseArgs raw = (html, p0 :: rest) ->
  run w raw =
  finish (render w html (path_resolve w [p0]) (htmlPath_of w html)
            (outPath_of w (path_resolve w [p0]) (head rest))).
Proof. intros H. unfold run, program, main, finish. rewrite H. reflexivity. Qed.

(** The export, when it is called, is called for the computed path. *)
Lemma render_pdf_event w html tempDir htmlPath outPath o :
  In (Pdf o) (fst (finish (render w html tempDir htmlPath outPath))) ->
  o = {| path := outPath; printBackground := true; preferCSSPageSize := true |}.
Proof.
  run_as t c; cbn; intros H; intuition congruence.
Qed.

Lemma run_pdf_event w raw html p0 rest o :
  parseArgs raw = (html, p0 :: rest) ->
  In (Pdf o) (trace_of w raw) ->
  path o = path_join w [path_dirname w (path_resolve w [p0]); outName w (head rest)].
Proof.
  intros H Hin. unfold trace_of in Hin. rewrite (run_args _ _ _ _ _ H) in Hin.
  apply render_pdf_event in Hin. subst o. reflexivity.
Qed.

(** The data handed to the page is what the loader read. *)
Lemma render_evaluate_event w html tempDir htmlPath outPath p :
  In (Evaluate p) (fst (finish (render w html tempDir htmlPath outPath))) ->
  exists text json,
    fs_readFile w (path_join w [tempDir; "tricho_data.json"]) = Ok text
    /\ JSON_parse w text = Ok json
    /\ is_null json = false
    /\ data p = match own_property json "tricho_analysis" with
                | Some (JArr l) => l
                | _ => []
                end.
Proof.
  run_as t c; cbn; intros H;
    repeat (destruct H as [H | H]; [try discriminate H |]); try contradiction.
  all: injection H as <-; eauto 10.
Qed.

(* ================================================================== *)
(** ** C3, C10: the output path *)
(* ================================================================== *)

(** C3.  For every run with a bundle directory [p0], the export is called
    for the parent directory of the resolved bundle directory joined with
    the output name.  The output name is the caller's second positional name
    when that name has a PDF extension (in any letter case); otherwise, also
    when the name has another extension or none, it is the generated name:
    report-, the year, month, day, one hyphen, hour, minute and second of
    the clock, and .pdf.  For a clock reading in the calendar ranges, month,
    day, hour, minute and second have two digits each; with a year of the
    common era from 1000 to 9999, which is what the clock of a run reads,
    the year has four digits and the name matches
    report-YYYYMMDD-HHMMSS.pdf. *)
Theorem output_path_spec (w : World) (raw : list string) (html : option string)
    (p0 : string) (rest : list string) :
  parseArgs raw = (html, p0 :: rest) ->
  let parentDir := path_dirname w (path_resolve w [p0]) in
  let d := new_Date w in
  let generated :=
    "report-"
    ++ (String_Z (getFullYear d) ++ z2 (getMonth d + 1) ++ z2 (getDate d) ++ "-"
        ++ z2 (getHours d) ++ z2 (getMinutes d) ++ z2 (getSeconds d))
    ++ ".pdf" in
  (forall o, In (Pdf o) (trace_of w raw) ->
             path o = path_join w [parentDir; outName w (head rest)])
  /\ (forall name, head rest = Some name -> has_pdf_extension w name ->
                   outName w (head rest) = name)
  /\ ((head rest = None
       \/ exists name, head rest = Some name /\ ~ has_pdf_extension w name) ->
      outName w (head rest) = generated)
  /\ (valid_Date d ->
      two_digits (z2 (getMonth d + 1)) = true /\ two_digits (z2 (getDate d)) = true
      /\ two_digits (z2 (getHours d)) = true /\ two_digits (z2 (getMinutes d)) = true
      /\ two_digits (z2 (getSeconds d)) = true)
  /\ (valid_Date d -> (1000 <= getFullYear d <= 9999)%Z ->
      four_digits (String_Z (getFullYear d)) = true
      /\ is_generated_name generated = true).
Proof.
  intros Hargs parentDir d generated. repeat split.
  - intros o Hin. by apply (run_pdf_event w raw html p0 rest).
  - intros name -> Hext. by apply outName_honors.
  - intros H. by apply outName_generates.
  - apply z2_two_digits. unfold valid_Date in *. lia.
  - apply z2_two_digits. unfold valid_Date in *. lia.
  - apply z2_two_digits. unfold valid_Date in *. lia.
  - apply z2_two_digits. unfold valid_Date in *. lia.
  - apply z2_two_digits. unfold valid_Date in *. lia.
  - by apply year_four_digits.
  - by apply (ts_pattern d).
Qed.

Lemma output_path_spec_witness :
  outName w_ok (Some "notes.txt") = "report-20250720-090500.pdf"
  /\ is_generated_name "report-20250720-090500.pdf" = true.
Proof.
  destruct (output_path_spec w_ok ["/cases/c1"; "notes.txt"] None "/cases/c1"
              ["notes.txt"] eq_refl) as (_ & _ & Hgen & _ & Hpat).
  split.
  - etransitivity; [apply Hgen | vm_compute; reflexivity].
    right. exists "notes.txt". split; [reflexivity |].
    vm_compute. intros H.
    repeat (destruct H as [H | H]; [discriminate H |]). exact H.
  - apply Hpat; [unfold valid_Date; simpl; lia | simpl; lia].
Defined.

(** C10.  For every run whose second positional argument has an extension
    that is a letter casing of ".pdf" (".PDF", ".Pdf", ...), the output name
    is the caller's name as given, and the export is called for the parent
    directory joined with that name. *)
Theorem pdf_extension_any_case (w : World) (raw : list string) (html : option string)
    (p0 name : string) (rest : list string) :
  parseArgs raw = (html, p0 :: name :: rest) ->
  has_pdf_extension w name ->
  outName w (Some name) = name
  /\ (forall o, In (Pdf o) (trace_of w raw) ->
                path o = path_join w [path_dirname w (path_resolve w [p0]); name]).
Proof.
  intros Hargs Hext.
  pose proof (outName_honors w name Hext) as Hname.
  split; [exact Hname |].
  intros o Hin. rewrite (run_pdf_event w raw html p0 (name :: rest) o Hargs Hin).
  change (head (name :: rest)) with (Some name). by rewrite Hname.
Qed.

Lemma pdf_extension_any_case_witness :
  outName w_ok (Some "Report.PDF") = "Report.PDF"
  /\ (forall o, In (Pdf o) (trace_of w_ok ["/cases/c1"; "Report.PDF"]) ->
                path o = "/cases/Report.PDF").
Proof.
  apply (pdf_extension_any_case w_ok ["/cases/c1"; "Report.PDF"] None "/cases/c1"
           "Report.PDF" [] eq_refl).
  vm_compute. tauto.
Defined.

Example pdf_extension_samples :
  map (fun n => outName w_ok (Some n)) ["a.pdf"; "a.PDF"; "a.Pdf"; "a.pdf.txt"; "pdf"; ".pdf"; ""]
  = ["a.pdf"; "a.PDF"; "a.Pdf"; "report-20250720-090500.pdf";
     "report-20250720-090500.pdf"; "report-20250720-090500.pdf";
     "report-20250720-090500.pdf"].
Proof. vm_compute. reflexivity. Qed.

(* ================================================================== *)
(** ** C8, C7: runs that end before a browser is started *)
(* ================================================================== *)

(** C8.  For every invocation whose arguments hold no positional argument,
    the run writes the usage text to the error stream and ends with status
    1; that is the whole trace: no file is read or written and no browser
    is started. *)
Theorem usage_on_no_positional (w : World) (raw : list string) :
  snd (parseArgs raw) = [] ->
  run w raw = ([ConsoleError [AStr USAGE]], 1%Z)
  /\ String.prefix "Usage:" USAGE = true.
Proof.
  intros H. split; [| reflexivity].
  destruct (parseArgs raw) as [html positional] eqn:E. simpl in H. subst positional.
  by apply run_usage with html.
Qed.

Lemma usage_on_no_positional_witness :
  run w_ok [] = ([ConsoleError [AStr USAGE]], 1%Z)
  /\ run w_ok ["--html"; "t.html"] = ([ConsoleError [AStr USAGE]], 1%Z).
Proof.
  split.
  - apply (usage_on_no_positional w_ok []). reflexivity.
  - apply (usage_on_no_positional w_ok ["--html"; "t.html"]). reflexivity.
Defined.

(** A run stopped by a failed existence check: status 1, no browser, and
    the check with its message are the last two entries of the trace. *)
Lemma render_missing_input w html tempDir htmlPath outPath :
  is_err (fs_access w (path_join w [tempDir; "tricho_data.json"])) = true
  \/ is_err (fs_access w htmlPath) = true ->
  let r := finish (render w html tempDir htmlPath outPath) in
  snd r = 1%Z
  /\ existsb is_Launch (fst r) = false
  /\ existsb is_Pdf (fst r) = false
  /\ exists t0 label p,
       fst r = (t0 ++ [FsAccess p; ConsoleError [AStr label; AStr p]])%list
       /\ is_err (fs_access w p) = true
       /\ (p = path_join w [tempDir; "tricho_data.json"] \/ p = htmlPath).
Proof.
  intros H r. subst r.
  destruct (fs_access w (path_join w [tempDir; "tricho_data.json"])) as [[]|e1] eqn:E1.
  - destruct H as [H | H]; [discriminate H |].
    destruct (fs_access w htmlPath) as [[]|e2] eqn:E2; [discriminate H |].
    unfold finish, render. step. rewrite E1. step. rewrite E2. step.
    repeat split.
    eexists [_; _; _; _; _; _], _, _. split; [reflexivity |].
    rewrite E2. auto.
  - unfold finish, render. step. rewrite E1. step.
    repeat split.
    eexists [_; _; _; _; _], _, _. split; [reflexivity |].
    rewrite E1. auto.
Qed.

(** C7.  For every invocation with a bundle directory in which the data
    file [tricho_data.json] under it, or the template document, is absent
    (the existence check fails), the run ends with status 1 right after the
    failed check and its message, and [puppeteer.launch] is never called. *)
Theorem missing_input_exits_before_launch (w : World) (raw : list string)
    (html : option string) (p0 : string) (rest : list string) :
  parseArgs raw = (html, p0 :: rest) ->
  is_err (fs_access w (path_join w [path_resolve w [p0]; "tricho_data.json"])) = true
  \/ is_err (fs_access w (htmlPath_of w html)) = true ->
  status_of w raw = 1%Z
  /\ existsb is_Launch (trace_of w raw) = false
  /\ existsb is_Pdf (trace_of w raw) = false
  /\ exists t0 label p,
       trace_of w raw = (t0 ++ [FsAccess p; ConsoleError [AStr label; AStr p]])%list
       /\ is_err (fs_access w p) = true
       /\ (p = path_join w [path_resolve w [p0]; "tricho_data.json"]
           \/ p = htmlPath_of w html).
Proof.
  intros Hargs Hmiss. unfold status_of, trace_of.
  rewrite (run_args w raw html p0 rest Hargs).
  by apply render_missing_input.
Qed.

Lemma missing_input_exits_before_launch_witness :
  status_of w_no_data ["/cases/c1"] = 1%Z
  /\ existsb is_Launch (trace_of w_no_data ["/cases/c1"]) = false.
Proof.
  destruct (missing_input_exits_before_launch w_no_data ["/cases/c1"] None
              "/cases/c1" [] eq_refl) as (Hs & Hl & _).
  - left. vm_compute. reflexivity.
  - split; assumption.
Defined.

(* ================================================================== *)
(** ** C1: closing the browser *)
(* ================================================================== *)

(** C1 (as stated, refuted).  When the template does not load, the run has
    started a browser and ends, with status 1, without calling
    [browser.close]. *)
Lemma close_skipped_when_template_fails :
  ~ released_on_every_path w_goto_fails ["/cases/c1"].
Proof.
  unfold released_on_every_path, acquired, released. intros H.
  assert (A : existsb is_BrowserClose (trace_of w_goto_fails ["/cases/c1"]) = false)
    by (vm_compute; reflexivity).
  rewrite H in A; [discriminate A |].
  split; vm_compute; reflexivity.
Qed.

Lemma render_release w html tempDir htmlPath outPath :
  let r := finish (render w html tempDir htmlPath outPath) in
  (released (fst r) <-> exported w (fst r) outPath)
  /\ (snd r = 0%Z -> acquired w (fst r) /\ released (fst r))
  /\ (acquired w (fst r) -> ~ released (fst r) ->
      snd r = 1%Z
      /\ exists e, last (fst r) = Some (ConsoleError [AStr "✗ Error:"; AErr e])).
Proof.
  intros r; subst r. unfold released, acquired, exported.
  run_as t c; cbn.
  all: split;
    [ split;
      [ first [discriminate | intros _; split; [in_trace | reflexivity]]
      | first [reflexivity | intros [Hin Hok]; intuition congruence] ] |].
  all: split; [ first [discriminate | intros _; repeat split; reflexivity] |].
  all: intros [Hl Ha] Hr; try discriminate Hl; try congruence.
  all: split; [reflexivity | eexists; reflexivity].
Qed.

(** C1 (amended).  For every run, [browser.close] is called exactly when the
    export has been called and has answered: a run that ends with status 0
    has started a browser and closed it, and a run that has started a
    browser and fails at a later step reports the error through the handler
    of the last line and ends with status 1 without calling
    [browser.close]. *)
Theorem browser_closed_iff_exported (w : World) (raw : list string) :
  let t := trace_of w raw in
  (released t <-> exists p, exported w t p)
  /\ (status_of w raw = 0%Z -> acquired w t /\ released t)
  /\ (acquired w t -> ~ released t ->
      status_of w raw = 1%Z
      /\ exists e, last t = Some (ConsoleError [AStr "✗ Error:"; AErr e])).
Proof.
  intros t. subst t. unfold trace_of, status_of.
  destruct (parseArgs raw) as [html [|p0 rest]] eqn:Hargs.
  - rewrite (run_usage w raw html Hargs).
    unfold released, acquired, exported. cbn.
    split; [split; [discriminate | intros (p & [Hp | []] & _); discriminate Hp] |].
    split; [discriminate |].
    intros [Hl _]. discriminate Hl.
  - rewrite (run_args w raw html p0 rest Hargs).
    destruct (render_release w html (path_resolve w [p0]) (htmlPath_of w html)
                (outPath_of w (path_resolve w [p0]) (head rest))) as (H1 & H2 & H3).
    split; [| split; assumption].
    split.
    + intros Hr. eexists. by apply H1.
    + intros (p & Hp). pose proof Hp as [Hin _].
      apply render_pdf_event in Hin. injection Hin as ->. by apply H1.
Qed.

(* ================================================================== *)
(** ** C2: the settle wait *)
(* ================================================================== *)

(** C2 (as stated, refuted).  The timeout of the settle wait is not the only
    failure that is swallowed.  When the card count is rejected, the
    rejection is swallowed too (the count is reported as 0) and the run ends
    with status 0; and so it does when the settle wait is rejected for
    another reason than its timeout. *)
Lemma swallowed_beyond_the_timeout :
  ~ only_timeout_swallowed w_count_fails ["/cases/c1"]
  /\ ~ only_timeout_swallowed w_wait_rejected ["/cases/c1"].
Proof.
  split; intros H.
  - apply (H (EvalCount ".card")).
    + vm_compute. in_trace.
    + reflexivity.
    + reflexivity.
    + vm_compute. reflexivity.
  - apply (H (WaitForSelector "#mini tbody tr" 8000)).
    + vm_compute. in_trace.
    + reflexivity.
    + reflexivity.
    + vm_compute. reflexivity.
Qed.

(** A failed answer recorded in the context contradicts [answer_fails]. *)
Ltac answered :=
  match goal with
  | E : ?r = Ok _, Hf : context [is_err ?r] |- _ =>
      rewrite E in Hf; discriminate Hf
  | Hf : false = true |- _ => discriminate Hf
  | Hf : is_err (Ok _) = true |- _ => discriminate Hf
  end.

Lemma render_settle w html tempDir htmlPath outPath :
  let r := finish (render w html tempDir htmlPath outPath) in
  let o := {| path := outPath; printBackground := true; preferCSSPageSize := true |} in
  (forall sel ms, In (WaitForSelector sel ms) (fst r) ->
                  sel = "#mini tbody tr" /\ ms = 8000%Z)
  /\ (existsb is_WaitForSelector (fst r) = true ->
      exists rest,
        from_first is_WaitForSelector (fst r) =
          WaitForSelector "#mini tbody tr" 8000 :: EvalCount ".card"
          :: ConsoleLog [AStr "  cards rendered:";
                         ANum (match page_count w ".card" with
                               | Ok n => n
                               | Err _ => 0%nat
                               end)]
          :: ConsoleLog [AStr "▶ Exporting PDF ..."] :: ConsoleTime "pdf:write"
          :: EmulateMediaType "screen" :: rest
        /\ (page_emulateMediaType w "screen" = Ok tt -> head rest = Some (Pdf o))
        /\ (page_emulateMediaType w "screen" = Ok tt -> page_pdf w o = Ok tt ->
            exported w (fst r) outPath
            /\ (browser_close w = Ok tt -> snd r = 0%Z)))
  /\ (forall e, In e (fst r) -> answer_fails w e = true ->
                is_WaitForSelector e = false -> is_EvalCount e = false ->
                snd r = 1%Z).
Proof.
  intros r o; subst r o. unfold exported.
  run_as t c; cbn.
  all: split;
    [ intros sel ms Hin;
      repeat (destruct Hin as [Hin | Hin]; [try discriminate Hin |]);
      try contradiction; injection Hin as <- <-; split; reflexivity |].
  all: split;
    [ first
        [ discriminate
        | intros _; eexists; split; [reflexivity |];
          split; [ first [reflexivity | discriminate] |];
          first [ discriminate
                | intros _; first [discriminate | intros _];
                  split; [split; [in_trace | reflexivity] |];
                  first [reflexivity | discriminate] ] ] |].
  all: try (intros; reflexivity).
  all: intros ev Hin Hf Hw Hc;
    repeat (destruct Hin as [<- | Hin]; [cbn in Hf, Hw, Hc; try answered; try discriminate |]);
    contradiction.
Qed.

(** C2 (amended).  For every run, the wait for the results-table row is a
    call of [waitForSelector] for "#mini tbody tr" with a timeout of 8000
    ms.  Once the run has reached that wait, whatever the wait answers (the
    row shows up, the timeout passes, or the wait is rejected otherwise) the
    run does not fail at it: it counts the cards (a rejected count is
    reported as 0), announces the export and switches the media type to
    "screen"; when that call answers, the export is called for the output
    path, and when the export answers the output file is written (the run
    then ends with status 0 if closing the browser answers as well).  The
    rejections of the settle wait and of the card count are the only ones
    swallowed: a failure of any other call propagates and ends the run with
    status 1. *)
Theorem settle_wait_not_fatal (w : World) (raw : list string) :
  let t := trace_of w raw in
  (forall sel ms, In (WaitForSelector sel ms) t ->
                  sel = "#mini tbody tr" /\ ms = 8000%Z)
  /\ (existsb is_WaitForSelector t = true ->
      exists rest outPath,
        let o := {| path := outPath; printBackground := true;
                    preferCSSPageSize := true |} in
        from_first is_WaitForSelector t =
          WaitForSelector "#mini tbody tr" 8000 :: EvalCount ".card"
          :: ConsoleLog [AStr "  cards rendered:";
                         ANum (match page_count w ".card" with
                               | Ok n => n
                               | Err _ => 0%nat
                               end)]
          :: ConsoleLog [AStr "▶ Exporting PDF ..."] :: ConsoleTime "pdf:write"
          :: EmulateMediaType "screen" :: rest
        /\ (page_emulateMediaType w "screen" = Ok tt -> head rest = Some (Pdf o))
        /\ (page_emulateMediaType w "screen" = Ok tt -> page_pdf w o = Ok tt ->
            exported w t outPath
            /\ (browser_close w = Ok tt -> status_of w raw = 0%Z)))
  /\ (forall e, In e t -> answer_fails w e = true ->
                is_WaitForSelector e = false -> is_EvalCount e = false ->
                status_of w raw = 1%Z).
Proof.
  intros t. subst t. unfold trace_of, status_of.
  destruct (parseArgs raw) as [html [|p0 rest]] eqn:Hargs.
  - rewrite (run_usage w raw html Hargs). cbn.
    split; [intros sel ms [Hin | []]; discriminate Hin |].
    split; [discriminate |].
    intros; reflexivity.
  - rewrite (run_args w raw html p0 rest Hargs).
    destruct (render_settle w html (path_resolve w [p0]) (htmlPath_of w html)
                (outPath_of w (path_resolve w [p0]) (head rest))) as (H1 & H2 & H3).
    split; [exact H1 |]. split; [| exact H3].
    intros Hw. destruct (H2 Hw) as (rest' & Hrest).
    exists rest', (outPath_of w (path_resolve w [p0]) (head rest)). exact Hrest.
Qed.

Example timed_out_wait_still_exports :
  status_of w_wait_times_out ["/cases/c1"] = 0%Z
  /\ exported w_wait_times_out (trace_of w_wait_times_out ["/cases/c1"])
       "/cases/report-20250720-090500.pdf".
Proof.
  split; [vm_compute; reflexivity |].
  split; [vm_compute; in_trace | reflexivity].
Qed.

(* ================================================================== *)
(** ** C5, C6: the region sequence *)
(* ================================================================== *)

(** What the loader returns for a data file that parses to a value other
    than [null]. *)
Lemma readTrichoData_parsed w tempDir text json :
  fs_readFile w (path_join w [tempDir; "tricho_data.json"]) = Ok text ->
  JSON_parse w text = Ok json ->
  is_null json = false ->
  readTrichoData w tempDir =
  ([FsReadFile (path_join w [tempDir; "tricho_data.json"]) "utf8"],
   Returns (meta_of json, regions_of json)).
Proof.
  intros Hread Hparse Hnull. unfold readTrichoData.
  step. rewrite Hread. step. rewrite Hparse. step. rewrite !member_eq, Hnull.
  reflexivity.
Qed.

(** On an object, the own-property read [readTrichoData] makes for its two
    keys is the full property read: [Object.prototype] has no member of
    either name. *)
Lemma member_reads_chain w (m : gmap string value) key :
  key = "report_metadata" \/ key = "tricho_analysis" ->
  get w (JObj m) key = match own_property (JObj m) key with
                       | Some v => Data v
                       | None => Undefined
                       end.
Proof.
  intros [-> | ->]; unfold get; cbn [own_property];
    destruct (m !! _); reflexivity.
Qed.

Lemma no_array_regions json : no_array json -> regions_of json = [].
Proof.
  unfold regions_of. intros [-> | (v & -> & Hv)]; [reflexivity |].
  destruct v; try reflexivity. exfalso. by eapply Hv.
Qed.

(** The page function is called at most once in a run. *)
Lemma render_evaluate_once w html tempDir htmlPath outPath :
  (length (List.filter is_Evaluate
             (fst (finish (render w html tempDir htmlPath outPath)))) <= 1)%nat.
Proof. run_as t c; cbn; lia. Qed.

(** With the inputs in place, a data file that parses to a value other than
    [null] and metadata fields that have string forms, the run logs the
    number of regions and starts the browser; when the browser starts and
    loads the template, the page function is called. *)
Lemma render_loaded w html tempDir htmlPath outPath text json pid ed :
  fs_access w (path_join w [tempDir; "tricho_data.json"]) = Ok tt ->
  fs_access w htmlPath = Ok tt ->
  fs_readFile w (path_join w [tempDir; "tricho_data.json"]) = Ok text ->
  JSON_parse w text = Ok json ->
  is_null json = false ->
  safeMeta w (meta_of json) "name" "-" = Ok pid ->
  safeMeta w (meta_of json) "appointment_date" (toLocaleString_ja_JP w) = Ok ed ->
  let t := fst (finish (render w html tempDir htmlPath outPath)) in
  In (ConsoleLog [AStr "  regions(count):"; ANum (length (regions_of json))]) t
  /\ existsb is_Launch t = true
  /\ (puppeteer_launch w = Ok tt -> browser_newPage w = Ok tt ->
      page_goto w (pathToFileURL_href w htmlPath) = Ok tt ->
      exists p, In (Evaluate p) t /\ data p = regions_of json).
Proof.
  intros Ha1 Ha2 Hread Hparse Hnull Hpid Hed t. subst t.
  unfold finish, render.
  rewrite (readTrichoData_parsed w tempDir text json Hread Hparse Hnull).
  step. rewrite Ha1. step. rewrite Ha2. step. rewrite Hpid. step. rewrite Hed.
  repeat (step; answer); step.
  all: split; [in_trace |]; split; [reflexivity |].
  all: intros H1 H2 H3; try discriminate.
  all: eexists; split; [in_trace | reflexivity].
Qed.

(** A run that ends with a status other than 0 has a cause: a call that
    failed, a data file that does not parse or holds [null], or a metadata
    field without a string form. *)
Lemma render_failure_cause w html tempDir htmlPath outPath :
  let r := finish (render w html tempDir htmlPath outPath) in
  snd r = 0%Z
  \/ (exists e, In e (fst r) /\ answer_fails w e = true)
  \/ (exists text,
        fs_readFile w (path_join w [tempDir; "tricho_data.json"]) = Ok text
        /\ (is_err (JSON_parse w text) = true
            \/ exists json,
                 JSON_parse w text = Ok json
                 /\ (is_null json = true
                     \/ is_err (safeMeta w (meta_of json) "name" "-") = true
                     \/ is_err (safeMeta w (meta_of json) "appointment_date"
                                  (toLocaleString_ja_JP w)) = true))).
Proof.
  intros r; subst r.
  run_as t c; cbn.
  all: try (left; reflexivity).
  all: try (right; right; eexists; split; [first [reflexivity | eassumption] |];
            first [ left; match goal with E : _ = Err _ |- _ => rewrite E end; reflexivity
                  | right; eexists; split; [eassumption |];
                    first [ left; assumption
                          | right; left; unfold meta_of;
                            match goal with E : safeMeta _ _ "name" _ = Err _ |- _ =>
                              rewrite E end; reflexivity
                          | right; right; unfold meta_of;
                            match goal with
                              E : safeMeta _ _ "appointment_date" _ = Err _ |- _ =>
                              rewrite E end; reflexivity ] ]).
  all: right; left.
  all: match goal with
       | E : ?r = Err _ |- _ =>
           match r with
           | fs_access ?w ?p => exists (FsAccess p)
           | fs_readFile ?w ?p => exists (FsReadFile p "utf8")
           | puppeteer_launch ?w =>
               exists (Launch ["--no-sandbox"; "--disable-setuid-sandbox"] "new")
           | browser_newPage ?w => exists NewPage
           | page_goto ?w ?u => exists (Goto u "domcontentloaded")
           | in_page ?w ?p => exists (Evaluate p)
           | page_emulateMediaType ?w ?s => exists (EmulateMediaType s)
           | page_pdf ?w ?o => exists (Pdf o)
           | browser_close ?w => exists BrowserClose
           end;
           split; [in_trace | unfold answer_fails; rewrite E; reflexivity]
       end.
Qed.

(** C5 (as stated, refuted).  A data file without the array does not always
    leave the run without a fatal error.  For a data file that holds [null]
    the loader throws instead of returning an empty sequence; and for one
    that holds a name without a string form the loader returns an empty
    sequence, but the run then ends with status 1 although every call it
    made has answered. *)
Lemma missing_array_not_always_tolerated :
  ~ missing_array_tolerated w_null_file ["/cases/c1"]
  /\ ~ missing_array_tolerated w_unconvertible_name ["/cases/c1"].
Proof.
  split; intros H.
  - destruct (H None "/cases/c1" [] "{}" JNull eq_refl eq_refl eq_refl) as [[meta Hm] _].
    + by left.
    + vm_compute in Hm. discriminate Hm.
  - destruct (H None "/cases/c1" [] "{}"
                (JObj {[ "report_metadata" :=
                           JObj {[ "name" := JObj {[ "toString" := JNum "1" ]} ]} ]})
                eq_refl eq_refl eq_refl) as [_ Hs].
    + by left.
    + destruct Hs as (e & Hin & Hf); [vm_compute; discriminate |].
      vm_compute in Hin.
      repeat (destruct Hin as [<- | Hin]; [discriminate Hf |]). exact Hin.
Qed.

(** C5 (amended).  For every run on a data file that parses to a value
    other than [null] in which [tricho_analysis] is absent or bound to a
    value that is not an array, the loader returns, without throwing, an
    empty region sequence, and every call of the page function carries an
    empty sequence.  When moreover the two metadata fields have string forms
    ([safeMeta] returns for the name and for the date), the run goes on
    without a fatal error: with both inputs in place it logs a region count
    of 0 and goes on to start the browser, and if it ends with a status
    other than 0, a call failed: the missing array is never the cause. *)
Theorem missing_array_gives_empty_sequence (w : World) (raw : list string)
    (html : option string) (p0 : string) (rest : list string) (text : string)
    (json : value) :
  parseArgs raw = (html, p0 :: rest) ->
  let tempDir := path_resolve w [p0] in
  let dataJsonPath := path_join w [tempDir; "tricho_data.json"] in
  fs_readFile w dataJsonPath = Ok text ->
  JSON_parse w text = Ok json ->
  is_null json = false ->
  no_array json ->
  readTrichoData w tempDir =
    ([FsReadFile dataJsonPath "utf8"], Returns (meta_of json, []))
  /\ (forall p, In (Evaluate p) (trace_of w raw) -> data p = [])
  /\ (forall pid ed,
        safeMeta w (meta_of json) "name" "-" = Ok pid ->
        safeMeta w (meta_of json) "appointment_date" (toLocaleString_ja_JP w) = Ok ed ->
        (fs_access w dataJsonPath = Ok tt -> fs_access w (htmlPath_of w html) = Ok tt ->
         In (ConsoleLog [AStr "  regions(count):"; ANum 0]) (trace_of w raw)
         /\ existsb is_Launch (trace_of w raw) = true)
        /\ (status_of w raw <> 0%Z ->
            exists e, In e (trace_of w raw) /\ answer_fails w e = true)).
Proof.
  intros Hargs tempDir dataJsonPath Hread Hparse Hnull Harr.
  pose proof (no_array_regions json Harr) as Hempty.
  unfold trace_of, status_of. rewrite (run_args w raw html p0 rest Hargs).
  fold tempDir. split; [| split].
  - rewrite (readTrichoData_parsed w tempDir text json Hread Hparse Hnull).
    by rewrite Hempty.
  - intros p Hin. apply render_evaluate_event in Hin.
    destruct Hin as (text' & json' & Hr & Hp & _ & ->).
    fold dataJsonPath in Hr. rewrite Hread in Hr. injection Hr as <-.
    rewrite Hparse in Hp. injection Hp as <-. exact Hempty.
  - intros pid ed Hpid Hed. split.
    + intros Ha1 Ha2.
      destruct (render_loaded w html tempDir (htmlPath_of w html)
                  (outPath_of w tempDir (head rest)) text json pid ed
                  Ha1 Ha2 Hread Hparse Hnull Hpid Hed) as (Hlog & Hlaunch & _).
      rewrite Hempty in Hlog. by split.
    + intros Hstatus.
      destruct (render_failure_cause w html tempDir (htmlPath_of w html)
                  (outPath_of w tempDir (head rest)))
        as [H0 | [Hcall | (text' & Hr & Hbad)]]; [contradiction | exact Hcall |].
      exfalso. fold dataJsonPath in Hr. rewrite Hread in Hr. injection Hr as <-.
      rewrite Hparse in Hbad. destruct Hbad as [Hbad | (json' & Hj & Hn)].
      * discriminate Hbad.
      * injection Hj as <-. rewrite Hnull, Hpid, Hed in Hn.
        destruct Hn as [Hn | [Hn | Hn]]; discriminate Hn.
Qed.

Lemma missing_array_gives_empty_sequence_witness :
  (forall p, In (Evaluate p) (trace_of w_no_array ["/cases/c1"]) -> data p = [])
  /\ In (ConsoleLog [AStr "  regions(count):"; ANum 0]) (trace_of w_no_array ["/cases/c1"]).
Proof.
  destruct (missing_array_gives_empty_sequence w_no_array ["/cases/c1"] None
              "/cases/c1" [] "{}" (JObj {[ "tricho_analysis" := JStr "none" ]})
              eq_refl eq_refl eq_refl eq_refl) as (_ & Hdata & Hrun).
  - right. exists (JStr "none"). split; [reflexivity | discriminate].
  - split; [exact Hdata |].
    destruct (Hrun "-" "2025/7/20 9:05:00" eq_refl eq_refl) as [Hlog _].
    by apply Hlog.
Defined.

(** C6.  For every run on a data file that parses to an object whose
    [tricho_analysis] is the array [l], the loader returns [l] itself and
    every call of the page function carries [l], the same elements in the
    same order; the page function is called at most once in a run, and it
    is called, with [l], whenever the inputs are in place, the two metadata
    fields have string forms, the browser starts and the template loads;
    the entry point of the template, when it is a function, is applied to
    [l]. *)
Theorem region_order_preserved (w : World) (raw : list string)
    (html : option string) (p0 : string) (rest : list string) (text : string)
    (m : gmap string value) (l : list value) :
  parseArgs raw = (html, p0 :: rest) ->
  let tempDir := path_resolve w [p0] in
  let dataJsonPath := path_join w [tempDir; "tricho_data.json"] in
  fs_readFile w dataJsonPath = Ok text ->
  JSON_parse w text = Ok (JObj m) ->
  m !! "tricho_analysis" = Some (JArr l) ->
  readTrichoData w tempDir =
    ([FsReadFile dataJsonPath "utf8"], Returns (meta_of (JObj m), l))
  /\ (forall p, In (Evaluate p) (trace_of w raw) ->
        data p = l
        /\ forall f, window_renderReportFromJson w = Some f ->
                     in_page w p = f l (opts p))
  /\ (length (List.filter is_Evaluate (trace_of w raw)) <= 1)%nat
  /\ (forall pid ed,
        fs_access w dataJsonPath = Ok tt -> fs_access w (htmlPath_of w html) = Ok tt ->
        safeMeta w (meta_of (JObj m)) "name" "-" = Ok pid ->
        safeMeta w (meta_of (JObj m)) "appointment_date" (toLocaleString_ja_JP w)
          = Ok ed ->
        puppeteer_launch w = Ok tt -> browser_newPage w = Ok tt ->
        page_goto w (pathToFileURL_href w (htmlPath_of w html)) = Ok tt ->
        exists p, In (Evaluate p) (trace_of w raw) /\ data p = l).
Proof.
  intros Hargs tempDir dataJsonPath Hread Hparse Harr.
  assert (Hl : regions_of (JObj m) = l).
  { unfold regions_of. cbn [own_property]. by rewrite Harr. }
  unfold trace_of. rewrite (run_args w raw html p0 rest Hargs).
  fold tempDir. split; [| split; [| split]].
  - rewrite (readTrichoData_parsed w tempDir text (JObj m) Hread Hparse eq_refl).
    by rewrite Hl.
  - intros p Hin. apply render_evaluate_event in Hin.
    destruct Hin as (text' & json & Hr & Hp & _ & Hd).
    fold dataJsonPath in Hr. rewrite Hread in Hr. injection Hr as <-.
    rewrite Hparse in Hp. injection Hp as <-.
    fold (regions_of (JObj m)) in Hd. rewrite Hl in Hd.
    split; [exact Hd |].
    intros f Hf. unfold in_page. by rewrite Hf, Hd.
  - apply render_evaluate_once.
  - intros pid ed Ha1 Ha2 Hpid Hed Hlaunch Hn Hg.
    destruct (render_loaded w html tempDir (htmlPath_of w html)
                (outPath_of w tempDir (head rest)) text (JObj m) pid ed
                Ha1 Ha2 Hread Hparse eq_refl Hpid Hed) as (_ & _ & Hev).
    destruct (Hev Hlaunch Hn Hg) as (p & Hin & Hd).
    exists p. split; [exact Hin |]. by rewrite Hd.
Qed.

Lemma region_order_preserved_witness :
  exists p, In (Evaluate p) (trace_of w_ok ["/cases/c1"])
            /\ data p = [sample_region "a"; sample_region "b"].
Proof.
  destruct (region_order_preserved w_ok ["/cases/c1"] None "/cases/c1" [] "{}"
              {[ "report_metadata" := JObj {[ "name" := JStr " P-001 " ]};
                 "tricho_analysis" := JArr [sample_region "a"; sample_region "b"] ]}
              [sample_region "a"; sample_region "b"]
              eq_refl eq_refl eq_refl) as (_ & _ & _ & Hcall).
  - vm_compute. reflexivity.
  - apply (Hcall "P-001" "2025/7/20 9:05:00"); reflexivity.
Defined.

(** ** C9: the newest report of a folder *)
(* ================================================================== *)

Section NewestFile.
Import NewestFolderGetter.

Lemma insert_desc_perm x l : Permutation (insert_desc x l) (x :: l).
Proof.
  induction l as [|y l IH]; simpl; [reflexivity |].
  destruct (LastWriteTime y <=? LastWriteTime x)%Z; [reflexivity |].
  rewrite IH. apply perm_swap.
Qed.

Lemma Sort_Object_Descending_perm l : Permutation (Sort_Object_Descending l) l.
Proof.
  induction l as [|x l IH]; simpl; [reflexivity |].
  rewrite insert_desc_perm. by constructor.
Qed.

Lemma insert_desc_sorted x l :
  StronglySorted newer_or_same l -> StronglySorted newer_or_same (insert_desc x l).
Proof.
  induction 1 as [|y l Hs IH Hall]; simpl.
  - repeat constructor.
  - destruct (Z.leb_spec (LastWriteTime y) (LastWriteTime x)) as [Hle | Hlt].
    + constructor; [by constructor |].
      constructor; [exact Hle |].
      eapply Forall_impl; [exact Hall |].
      unfold newer_or_same. intros g Hg. lia.
    + constructor; [exact IH |].
      rewrite insert_desc_perm. constructor; [| exact Hall].
      unfold newer_or_same. lia.
Qed.

Lemma Sort_Object_Descending_sorted l :
  StronglySorted newer_or_same (Sort_Object_Descending l).
Proof.
  induction l as [|x l IH]; simpl; [constructor | by apply insert_desc_sorted].
Qed.

(** The first entry after sorting is an entry of the list and none is newer. *)
Lemma head_sorted_newest l f :
  head (Sort_Object_Descending l) = Some f ->
  In f l /\ forall g, In g l -> newer_or_same f g.
Proof.
  intros Hh.
  pose proof (Sort_Object_Descending_perm l) as Hp.
  pose proof (Sort_Object_Descending_sorted l) as Hs.
  destruct (Sort_Object_Descending l) as [|f' s]; [discriminate |].
  injection Hh as ->. split.
  - apply (Permutation_in _ Hp). simpl. auto.
  - intros g Hg. apply (Permutation_in _ (Permutation_sym Hp)) in Hg.
    apply StronglySorted_inv in Hs as [_ Hall].
    destruct Hg as [<- | Hg]; [unfold newer_or_same; lia |].
    rewrite List.Forall_forall in Hall. by apply Hall.
Qed.

Lemma head_sorted_none l : head (Sort_Object_Descending l) = None -> l = [].
Proof.
  intros Hh. pose proof (Sort_Object_Descending_perm l) as Hp.
  destruct (Sort_Object_Descending l); [| discriminate].
  by apply Permutation_nil.
Qed.

(** The entries the pipeline keeps are the matches. *)
Lemma kept_iff_match h dir targetDate f :
  In f (List.filter (fun f => (Date targetDate <=? LastWriteTime f)%Z)
          (List.filter (fun f => negb (IsDirectory f) && Filter_pdf f)
             (Get_ChildItem h dir)))
  <-> is_match h dir targetDate f.
Proof.
  unfold is_match. rewrite !filter_In, andb_true_iff, negb_true_iff, Z.leb_le.
  tauto.
Qed.

(** 0:00 of a day: a whole number of days, at most the time itself and
    less than a day before it. *)
Lemma Date_midnight t :
  (Date t mod ticksPerDay = 0 /\ Date t <= t < Date t + ticksPerDay)%Z.
Proof.
  unfold Date. assert (0 < ticksPerDay)%Z by reflexivity.
  pose proof (Z.mod_pos_bound t ticksPerDay H).
  split; [| lia].
  rewrite Zminus_mod, Zmod_mod, Z.sub_diag. reflexivity.
Qed.

End NewestFile.

(** C9.  For every directory and date threshold, the query either returns
    the full path of a file of the directory that passes the [*.pdf] filter
    and was last written at or after 0:00 of the threshold's day, no other
    such file being more recent, or, when the directory holds no such file,
    returns the threshold's short date followed by " has no report"; it
    returns a string in both cases.  The bound 0:00 is the start of the
    threshold's day: a whole number of days, at most the threshold and less
    than a day before it. *)
Theorem newest_report_spec (h : NewestFolderGetter.Host) (dir : string)
    (targetDate : Z) :
  let newest := NewestFolderGetter.newestFile h (Some dir) targetDate in
  let answer := NewestFolderGetter.report h (Some dir) targetDate in
  let midnight := NewestFolderGetter.Date targetDate in
  ((exists f,
     newest = Some f
     /\ answer = NewestFolderGetter.FullName f
     /\ NewestFolderGetter.is_match h dir targetDate f
     /\ forall g, NewestFolderGetter.is_match h dir targetDate g ->
                  (NewestFolderGetter.LastWriteTime g
                   <= NewestFolderGetter.LastWriteTime f)%Z)
  \/ (newest = None
      /\ answer = NewestFolderGetter.ToShortDateString h targetDate ++ " has no report"
      /\ forall g, ~ NewestFolderGetter.is_match h dir targetDate g))
  /\ (midnight mod NewestFolderGetter.ticksPerDay = 0
      /\ midnight <= targetDate < midnight + NewestFolderGetter.ticksPerDay)%Z.
Proof.
  intros newest answer midnight. subst newest answer midnight.
  split; [| apply Date_midnight].
  unfold NewestFolderGetter.report.
  destruct (NewestFolderGetter.newestFile h (Some dir) targetDate) as [f|] eqn:E.
  - left. exists f. unfold NewestFolderGetter.newestFile in E.
    change (NewestFolderGetter.children h (Some dir))
      with (NewestFolderGetter.Get_ChildItem h dir) in E.
    apply head_sorted_newest in E as [Hin Hnew].
    split; [reflexivity |]. split; [reflexivity |]. split.
    + by apply kept_iff_match.
    + intros g Hg. apply Hnew. by apply kept_iff_match.
  - right. unfold NewestFolderGetter.newestFile in E.
    change (NewestFolderGetter.children h (Some dir))
      with (NewestFolderGetter.Get_ChildItem h dir) in E.
    apply head_sorted_none in E.
    split; [reflexivity |]. split; [reflexivity |].
    intros g Hg. apply kept_iff_match in Hg. rewrite E in Hg. destruct Hg.
Qed.

Example Filter_pdf_samples :
  map (fun n => NewestFolderGetter.Filter_pdf (NewestFolderGetter.sample_file n 0))
      ["a.pdf"; "A.PDF"; "a.pdf.bak"; "pdf"; ".pdf"]
  = [true; true; false; false; true].
Proof. vm_compute. reflexivity. Qed.

Example newest_report_samples :
  NewestFolderGetter.report NewestFolderGetter.sample_host (Some "C:\case")
    NewestFolderGetter.targetDate_literal = "C:\case\SECOND.PDF"
  /\ NewestFolderGetter.report NewestFolderGetter.empty_host (Some "C:\case")
       NewestFolderGetter.targetDate_literal = "2025/07/20 has no report"
  /\ NewestFolderGetter.report NewestFolderGetter.sample_host None
       NewestFolderGetter.targetDate_literal = "2025/07/20 has no report".
Proof. vm_compute. repeat split. Qed.

(* ================================================================== *)
(** ** Further properties: parseArgs *)
(* ================================================================== *)

(** The positional arguments collected so far are kept in front, and the
    flag found does not depend on them. *)
Lemma parseArgs_loop_acc argv :
  forall html pos,
    parseArgs_loop argv html pos
    = (fst (parseArgs_loop argv html []), (pos ++ snd (parseArgs_loop argv html []))%list).
Proof.
  enough (H : (forall html pos,
                 parseArgs_loop argv html pos
                 = (fst (parseArgs_loop argv html []),
                    (pos ++ snd (parseArgs_loop argv html []))%list))
              /\ (forall a html pos,
                    parseArgs_loop (a :: argv) html pos
                    = (fst (parseArgs_loop (a :: argv) html []),
                       (pos ++ snd (parseArgs_loop (a :: argv) html []))%list)))
    by apply H.
  induction argv as [|b argv [IH1 IH2]].
  - split.
    + intros html pos. simpl. by rewrite app_nil_r.
    + intros a html pos. simpl. destruct (String.eqb a "--html"); simpl.
      * by rewrite app_nil_r.
      * reflexivity.
  - split; [exact (IH2 b) |].
    intros a html pos. simpl.
    destruct (String.eqb a "--html").
    + apply IH1.
    + change (parseArgs_loop (b :: argv) html (pos ++ [a])
              = (fst (parseArgs_loop (b :: argv) html [a]),
                 (pos ++ snd (parseArgs_loop (b :: argv) html [a]))%list)).
      rewrite (IH2 b html (pos ++ [a])%list), (IH2 b html [a]). simpl.
      by rewrite <- app_assoc.
Qed.

Lemma parseArgs_loop_flag_free l rest html pos :
  flag_free l ->
  parseArgs_loop (l ++ rest) html pos = parseArgs_loop rest html (pos ++ l).
Proof.
  revert pos. induction l as [|a l IH]; intros pos Hl; simpl.
  - by rewrite app_nil_r.
  - destruct (String.eqb_spec a "--html") as [-> | Hne].
    + exfalso. apply Hl. by left.
    + rewrite IH; [by rewrite <- app_assoc |].
      intros Hin. apply Hl. by right.
Qed.

Lemma parseArgs_loop_cons a argv html pos :
  parseArgs_loop (a :: argv) html pos =
  if String.eqb a "--html" then
    match argv with
    | [] => (None, pos)
    | v :: rest => parseArgs_loop rest (Some v) pos
    end
  else parseArgs_loop argv html (pos ++ [a]).
Proof. reflexivity. Qed.

(** X1.  The positional arguments [parseArgs] returns are arguments of the
    command line, in their order and none twice over (a sublist of [argv]),
    and never hold the flag "--html": an argument "--html" is always read as
    the flag. *)
Theorem parseArgs_positional_sublist (argv : list string) :
  sublist (snd (parseArgs argv)) argv /\ ~ In "--html" (snd (parseArgs argv)).
Proof.
  unfold parseArgs. generalize (@None string) as html.
  enough (H : (forall html, sublist (snd (parseArgs_loop argv html [])) argv
                            /\ ~ In "--html" (snd (parseArgs_loop argv html [])))
              /\ (forall a html,
                    sublist (snd (parseArgs_loop (a :: argv) html [])) (a :: argv)
                    /\ ~ In "--html" (snd (parseArgs_loop (a :: argv) html []))))
    by apply H.
  induction argv as [|b argv [IH1 IH2]].
  - split.
    + intros html. simpl. split; [constructor | tauto].
    + intros a html. simpl. destruct (String.eqb_spec a "--html") as [-> | Hne]; simpl.
      * split; [by apply sublist_nil_l | tauto].
      * split; [reflexivity | intros [H | []]; congruence].
  - split; [exact (IH2 b) |].
    intros a html. rewrite (parseArgs_loop_cons a (b :: argv)).
    destruct (String.eqb_spec a "--html") as [-> | Hne].
    + destruct (IH1 (Some b)) as [Hs Hn]. split; [| exact Hn].
      by do 2 apply sublist_cons.
    + rewrite (parseArgs_loop_acc (b :: argv) html ([] ++ [a])). cbn [snd app].
      destruct (IH2 b html) as [Hs Hn]. split.
      * by apply sublist_skip.
      * intros [H | H]; [congruence | by apply Hn].
Qed.

(** X2.  The flag may stand anywhere.  For arguments [pre] and [post] free
    of "--html": without the flag, every argument is positional and the
    template flag is unset; with "--html v" between them, the flag is [v]
    and the positional arguments are [pre] followed by [post]; and a last
    "--html" that has no value after it unsets the flag again, whatever
    value was given before. *)
Theorem parseArgs_flag_anywhere (pre post : list string) (v : string) :
  flag_free pre -> flag_free post ->
  parseArgs (pre ++ post) = (None, (pre ++ post)%list)
  /\ parseArgs (pre ++ "--html" :: v :: post) = (Some v, (pre ++ post)%list)
  /\ parseArgs (pre ++ "--html" :: v :: post ++ ["--html"]) = (None, (pre ++ post)%list).
Proof.
  intros Hpre Hpost. unfold parseArgs. repeat split.
  - rewrite parseArgs_loop_flag_free by exact Hpre.
    rewrite <- (app_nil_r post) at 1.
    rewrite parseArgs_loop_flag_free by exact Hpost. reflexivity.
  - rewrite parseArgs_loop_flag_free by exact Hpre. simpl.
    rewrite <- (app_nil_r post) at 1.
    rewrite parseArgs_loop_flag_free by exact Hpost. reflexivity.
  - rewrite parseArgs_loop_flag_free by exact Hpre. simpl.
    rewrite parseArgs_loop_flag_free by exact Hpost. reflexivity.
Qed.

Lemma parseArgs_flag_anywhere_witness :
  parseArgs ["/cases/c1"; "--html"; "t.html"; "out.pdf"]
  = (Some "t.html", ["/cases/c1"; "out.pdf"])
  /\ parseArgs ["/cases/c1"; "--html"; "t.html"; "out.pdf"; "--html"]
     = (None, ["/cases/c1"; "out.pdf"]).
Proof.
  destruct (parseArgs_flag_anywhere ["/cases/c1"] ["out.pdf"] "t.html")
    as (_ & H2 & H3).
  - unfold flag_free. simpl. intros [H | []]; discriminate H.
  - unfold flag_free. simpl. intros [H | []]; discriminate H.
  - split; [exact H2 | exact H3].
Defined.

(* ================================================================== *)
(** ** Further properties: toBaseUrl and ts *)
(* ================================================================== *)

Lemma endsWith_slash_app s : endsWith_slash (s ++ "/") = true.
Proof.
  induction s as [|a s IH]; [reflexivity |].
  change (endsWith_slash (String a (s ++ "/")) = true).
  destruct (s ++ "/") eqn:E; [destruct s; discriminate E | exact IH].
Qed.

Lemma toBaseUrl_slash w dirPath : endsWith_slash (toBaseUrl w dirPath) = true.
Proof.
  unfold toBaseUrl.
  destruct (endsWith_slash (pathToFileURL_href w (path_resolve w [dirPath]))) eqn:E;
    simpl; [exact E | apply endsWith_slash_app].
Qed.

(** X3.  The base URL [toBaseUrl] returns always ends with a slash: it is
    the file URL of the resolved directory as it is when that already ends
    with a slash, and with one slash added otherwise. *)
Theorem toBaseUrl_ends_with_slash (w : World) (dirPath : string) :
  let href := pathToFileURL_href w (path_resolve w [dirPath]) in
  endsWith_slash (toBaseUrl w dirPath) = true
  /\ toBaseUrl w dirPath = (if endsWith_slash href then href else href ++ "/").
Proof.
  intros href. subst href.
  split; [apply toBaseUrl_slash |].
  unfold toBaseUrl.
  by destruct (endsWith_slash (pathToFileURL_href w (path_resolve w [dirPath]))).
Qed.

Lemma string_app_inv_head (a a' b b' : string) :
  String.length a = String.length a' -> a ++ b = a' ++ b' -> a = a' /\ b = b'.
Proof.
  revert a'. induction a as [|x a IH]; intros [|x' a'] Hl H; try discriminate Hl.
  - split; [reflexivity | exact H].
  - change (String x (a ++ b) = String x' (a' ++ b')) in H.
    injection H as -> H. injection Hl as Hl.
    destruct (IH a' Hl H) as [-> ->]. split; reflexivity.
Qed.

Lemma string_app_length (a b : string) :
  String.length (a ++ b) = (String.length a + String.length b)%nat.
Proof.
  induction a as [|x a IH]; [reflexivity |].
  change (S (String.length (a ++ b)) = S (String.length a + String.length b)).
  by rewrite IH.
Qed.

Lemma string_app_inv_tail (a a' b b' : string) :
  String.length b = String.length b' -> a ++ b = a' ++ b' -> a = a' /\ b = b'.
Proof.
  intros Hl H. apply string_app_inv_head; [| exact H].
  apply (f_equal String.length) in H. rewrite !string_app_length in H. lia.
Qed.

Lemma two_digits_length s : two_digits s = true -> String.length s = 2%nat.
Proof.
  unfold two_digits.
  destruct s as [|a [|b [|c s]]]; simpl; try discriminate.
  - destruct (is_digit a); discriminate.
  - reflexivity.
  - destruct (is_digit a), (is_digit b); discriminate.
Qed.

Lemma z2_length n : (n < 100)%nat -> String.length (z2 n) = 2%nat.
Proof. intros H. apply two_digits_length. by apply z2_two_digits. Qed.

Lemma z2_injective_below_100 :
  forallb (fun i => forallb (fun j => implb (String.eqb (z2 i) (z2 j)) (i =? j)%nat)
                      (seq 0 100)) (seq 0 100) = true.
Proof. vm_compute. reflexivity. Qed.

Lemma z2_inj i j : (i < 100)%nat -> (j < 100)%nat -> z2 i = z2 j -> i = j.
Proof.
  intros Hi Hj H. pose proof z2_injective_below_100 as A.
  rewrite forallb_forall in A.
  assert (Ii : In i (seq 0 100)) by (apply in_seq; lia).
  assert (Ij : In j (seq 0 100)) by (apply in_seq; lia).
  specialize (A i Ii). rewrite forallb_forall in A. specialize (A j Ij).
  rewrite H, String.eqb_refl in A. simpl in A. by apply Nat.eqb_eq.
Qed.

Lemma String_Z_inj (a b : Z) : String_Z a = String_Z b -> a = b.
Proof.
  unfold String_Z. intros H.
  assert (N : forall z, NilZero.int_of_string (NilZero.string_of_int (Z.to_int z))
                        = Some (Z.to_int z)).
  { intros z. apply NilZero.isi.
    - destruct z as [|p|p]; simpl; try discriminate.
      intros [= E]. by apply (DecimalPos.Unsigned.to_uint_nonnil p).
    - destruct z as [|p|p]; simpl; try discriminate.
      intros [= E]. by apply (DecimalPos.Unsigned.to_uint_nonnil p). }
  apply DecimalZ.to_int_inj.
  apply (f_equal NilZero.int_of_string) in H. rewrite !N in H. by injection H.
Qed.

(** X4.  Two clock readings with fields in their calendar ranges that give
    the same timestamp, or the same generated file name, are the same
    reading: the generated names are distinct from one second to the
    next. *)
Theorem ts_injective (d1 d2 : Date) :
  valid_Date d1 -> valid_Date d2 ->
  (ts d1 = ts d2 -> d1 = d2)
  /\ ("report-" ++ ts d1 ++ ".pdf" = "report-" ++ ts d2 ++ ".pdf" -> d1 = d2).
Proof.
  intros (Hm1 & Hd1 & Hh1 & Hmi1 & Hs1) (Hm2 & Hd2 & Hh2 & Hmi2 & Hs2).
  assert (Hts : ts d1 = ts d2 -> d1 = d2).
  { rewrite !ts_unfold. intros H.
    apply string_app_inv_tail in H as [HY H];
      [| rewrite !string_app_length, !z2_length by lia; reflexivity].
    apply string_app_inv_head in H as [HM H]; [| rewrite !z2_length by lia; reflexivity].
    apply string_app_inv_head in H as [HD H]; [| rewrite !z2_length by lia; reflexivity].
    apply string_app_inv_head in H as [_ H]; [| reflexivity].
    apply string_app_inv_head in H as [Hh H]; [| rewrite !z2_length by lia; reflexivity].
    apply string_app_inv_head in H as [Hmi Hs]; [| rewrite !z2_length by lia; reflexivity].
    apply String_Z_inj in HY.
    apply z2_inj in HM, HD, Hh, Hmi, Hs; try lia.
    destruct d1, d2; simpl in *. f_equal; lia. }
  split; [exact Hts |].
  intros H. apply Hts.
  apply string_app_inv_head in H as [_ H]; [| reflexivity].
  apply string_app_inv_tail in H as [H _]; [exact H | reflexivity].
Qed.

Lemma ts_injective_witness :
  String.eqb (ts sample_date) (ts (new_Date w_year_999)) = false.
Proof.
  destruct (String.eqb_spec (ts sample_date) (ts (new_Date w_year_999))) as [E | _];
    [| reflexivity].
  assert (V1 : valid_Date sample_date) by (unfold valid_Date; simpl; lia).
  assert (V2 : valid_Date (new_Date w_year_999)) by (unfold valid_Date; simpl; lia).
  destruct (ts_injective sample_date (new_Date w_year_999) V1 V2) as [H _].
  discriminate (H E).
Defined.

(* ================================================================== *)
(** ** Further properties: the run *)
(* ================================================================== *)

Lemma render_unreadable_data w html tempDir htmlPath outPath :
  fs_access w (path_join w [tempDir; "tricho_data.json"]) = Ok tt ->
  fs_access w htmlPath = Ok tt ->
  let r := finish (render w html tempDir htmlPath outPath) in
  let fatal e :=
    snd r = 1%Z /\ existsb is_Launch (fst r) = false /\ existsb is_Pdf (fst r) = false
    /\ last (fst r) = Some (ConsoleError [AStr "✗ Error:"; AErr e]) in
  (forall e, fs_readFile w (path_join w [tempDir; "tricho_data.json"]) = Err e -> fatal e)
  /\ (forall text e,
        fs_readFile w (path_join w [tempDir; "tricho_data.json"]) = Ok text ->
        JSON_parse w text = Err e -> fatal e)
  /\ (forall text,
        fs_readFile w (path_join w [tempDir; "tricho_data.json"]) = Ok text ->
        JSON_parse w text = Ok JNull ->
        fatal (TypeError "Cannot read properties of null (reading 'report_metadata')")).
Proof.
  intros Ha1 Ha2 r fatal. subst r fatal. cbv beta.
  unfold finish, render, readTrichoData.
  step. rewrite Ha1. step. rewrite Ha2. step.
  split; [| split].
  - intros e He. rewrite He. step. repeat split.
  - intros text e Hr Hp. rewrite Hr. step. rewrite Hp. step. repeat split.
  - intros text Hr Hp. rewrite Hr. step. rewrite Hp. step. repeat split.
Qed.

(** X5.  With a bundle directory and both inputs in place, a data file that
    cannot be read, that does not parse, or that holds [null] is fatal: the
    error (the one thrown by the read or by [JSON.parse], or a TypeError
    for the property read on [null]) is reported by the handler of the
    last line, the status is 1, and neither a browser is started nor an
    export made. *)
Theorem unreadable_data_is_fatal (w : World) (raw : list string)
    (html : option string) (p0 : string) (rest : list string) :
  parseArgs raw = (html, p0 :: rest) ->
  let dataJsonPath := path_join w [path_resolve w [p0]; "tricho_data.json"] in
  fs_access w dataJsonPath = Ok tt ->
  fs_access w (htmlPath_of w html) = Ok tt ->
  (forall e, fs_readFile w dataJsonPath = Err e -> fatal_before_launch w raw e)
  /\ (forall text e, fs_readFile w dataJsonPath = Ok text -> JSON_parse w text = Err e ->
                     fatal_before_launch w raw e)
  /\ (forall text, fs_readFile w dataJsonPath = Ok text -> JSON_parse w text = Ok JNull ->
        exists msg, fatal_before_launch w raw (TypeError msg)).
Proof.
  intros Hargs dataJsonPath Ha1 Ha2.
  unfold fatal_before_launch, status_of, trace_of.
  rewrite (run_args w raw html p0 rest Hargs).
  destruct (render_unreadable_data w html (path_resolve w [p0]) (htmlPath_of w html)
              (outPath_of w (path_resolve w [p0]) (head rest)) Ha1 Ha2)
    as (H1 & H2 & H3).
  split; [exact H1 |]. split; [exact H2 |].
  intros text Hr Hp. eexists. by apply (H3 text).
Qed.

Lemma unreadable_data_is_fatal_witness :
  exists msg, fatal_before_launch w_null_file ["/cases/c1"] (TypeError msg).
Proof.
  destruct (unreadable_data_is_fatal w_null_file ["/cases/c1"] None "/cases/c1" []
              eq_refl eq_refl eq_refl) as (_ & _ & H).
  apply (H "{}"); reflexivity.
Defined.

Lemma render_without_entry_point w html tempDir htmlPath outPath :
  window_renderReportFromJson w = None ->
  let r := finish (render w html tempDir htmlPath outPath) in
  snd r = 1%Z
  /\ existsb is_WaitForSelector (fst r) = false
  /\ existsb is_Pdf (fst r) = false
  /\ existsb is_BrowserClose (fst r) = false
  /\ (existsb is_Evaluate (fst r) = true ->
      last (fst r)
      = Some (ConsoleError [AStr "✗ Error:";
                            AErr (Error "renderReportFromJson() not found on page")])).
Proof.
  intros Hw r; subst r.
  assert (Hp : forall p, in_page w p = Err (Error "renderReportFromJson() not found on page"))
    by (intros p; unfold in_page; by rewrite Hw).
  run_as t c; cbn.
  all: try (rewrite Hp in *; discriminate).
  all: repeat split; try reflexivity; try discriminate.
  all: intros _; rewrite Hp in *; congruence.
Qed.

(** X6.  When the page does not define [renderReportFromJson] as a
    function, no run succeeds: the status is 1, the settle wait and the
    export are never called and the browser is not closed; a run that gets
    as far as the injection ends with the report of an error by the handler
    of the last line. *)
Theorem missing_entry_point_is_fatal (w : World) (raw : list string) :
  window_renderReportFromJson w = None ->
  status_of w raw = 1%Z
  /\ existsb is_WaitForSelector (trace_of w raw) = false
  /\ existsb is_Pdf (trace_of w raw) = false
  /\ existsb is_BrowserClose (trace_of w raw) = false
  /\ (existsb is_Evaluate (trace_of w raw) = true ->
      exists e, last (trace_of w raw) = Some (ConsoleError [AStr "✗ Error:"; AErr e])).
Proof.
  intros Hw. unfold status_of, trace_of.
  destruct (parseArgs raw) as [html [|p0 rest]] eqn:Hargs.
  - rewrite (run_usage w raw html Hargs). cbn. repeat split. discriminate.
  - rewrite (run_args w raw html p0 rest Hargs).
    destruct (render_without_entry_point w html (path_resolve w [p0]) (htmlPath_of w html)
                (outPath_of w (path_resolve w [p0]) (head rest)) Hw)
      as (H1 & H2 & H3 & H4 & H5).
    repeat split; try assumption.
    intros He. eexists. by apply H5.
Qed.

Lemma missing_entry_point_is_fatal_witness :
  status_of (without_entry_point w_ok) ["/cases/c1"] = 1%Z
  /\ existsb is_Pdf (trace_of (without_entry_point w_ok) ["/cases/c1"]) = false.
Proof.
  destruct (missing_entry_point_is_fatal (without_entry_point w_ok) ["/cases/c1"]
              eq_refl) as (Hs & _ & Hp & _).
  split; [exact Hs | exact Hp].
Defined.

Lemma render_steps w html tempDir htmlPath outPath :
  steps_of (fst (finish (render w html tempDir htmlPath outPath))) `prefix_of` pipeline.
Proof.
  run_as t c; cbn; eexists; reflexivity.
Qed.

(** X7.  The browser calls of every run are made in the one order of the
    program, each at most once and none before the one it follows: launch,
    new page, console relay, template load, injection, settle wait, card
    count, media type, export, close; a run stops somewhere along this
    sequence. *)
Theorem browser_calls_in_program_order (w : World) (raw : list string) :
  steps_of (trace_of w raw) `prefix_of` pipeline
  /\ NoDup (steps_of (trace_of w raw)).
Proof.
  assert (H : steps_of (trace_of w raw) `prefix_of` pipeline).
  { unfold trace_of.
    destruct (parseArgs raw) as [html [|p0 rest]] eqn:Hargs.
    - rewrite (run_usage w raw html Hargs). cbn. by eexists.
    - rewrite (run_args w raw html p0 rest Hargs). apply render_steps. }
  split; [exact H |].
  destruct H as [k Hk].
  assert (N : NoDup pipeline).
  { unfold pipeline.
    repeat (constructor;
            [ intros Hin;
              repeat (apply elem_of_cons in Hin as [Hin | Hin]; [discriminate Hin |]);
              by apply elem_of_nil in Hin |]).
    constructor. }
  rewrite Hk in N. by apply NoDup_app in N as (N & _).
Qed.

Lemma render_export_precondition w html tempDir htmlPath outPath :
  existsb is_Pdf (fst (finish (render w html tempDir htmlPath outPath))) = true ->
  fs_access w (path_join w [tempDir; "tricho_data.json"]) = Ok tt
  /\ fs_access w htmlPath = Ok tt
  /\ puppeteer_launch w = Ok tt
  /\ browser_newPage w = Ok tt
  /\ In (Goto (pathToFileURL_href w htmlPath) "domcontentloaded")
        (fst (finish (render w html tempDir htmlPath outPath)))
  /\ page_goto w (pathToFileURL_href w htmlPath) = Ok tt
  /\ (exists p, In (Evaluate p) (fst (finish (render w html tempDir htmlPath outPath)))
                /\ in_page w p = Ok tt)
  /\ page_emulateMediaType w "screen" = Ok tt.
Proof.
  run_as t c; cbn; intros H; try discriminate H.
  all: do 4 (split; [reflexivity |]).
  all: split; [in_trace |].
  all: split; [reflexivity |].
  all: split; [| reflexivity].
  all: eexists; split; [in_trace | assumption].
Qed.

(** X8.  The export is called only in a run in which the browser started,
    the page opened, the template loaded, the injection ran without
    throwing (so the page defines the entry point) and the media type was
    switched: no PDF is written for a run that failed at one of these
    steps. *)
Theorem export_only_after_injection (w : World) (raw : list string) (o : pdf_options) :
  In (Pdf o) (trace_of w raw) ->
  puppeteer_launch w = Ok tt
  /\ browser_newPage w = Ok tt
  /\ (exists url, In (Goto url "domcontentloaded") (trace_of w raw)
                  /\ page_goto w url = Ok tt)
  /\ (exists p f, In (Evaluate p) (trace_of w raw) /\ in_page w p = Ok tt
                  /\ window_renderReportFromJson w = Some f)
  /\ page_emulateMediaType w "screen" = Ok tt.
Proof.
  unfold trace_of. intros Hin.
  destruct (parseArgs raw) as [html [|p0 rest]] eqn:Hargs.
  - rewrite (run_usage w raw html Hargs) in Hin. destruct Hin as [Hin | []].
    discriminate Hin.
  - rewrite (run_args w raw html p0 rest Hargs) in *.
    assert (Hpdf : existsb is_Pdf
                     (fst (finish (render w html (path_resolve w [p0]) (htmlPath_of w html)
                                     (outPath_of w (path_resolve w [p0]) (head rest)))))
                   = true)
      by (apply existsb_exists; exists (Pdf o); by split).
    apply render_export_precondition in Hpdf
      as (_ & _ & Hl & Hn & Hgoto & Hg & (p & Hp & Hok) & He).
    repeat split; try assumption.
    + exists (pathToFileURL_href w (htmlPath_of w html)). by split.
    + unfold in_page in Hok.
      destruct (window_renderReportFromJson w) as [f|] eqn:Hf; [| discriminate Hok].
      exists p, f. unfold in_page. rewrite Hf. repeat split; assumption.
Qed.

Lemma export_only_after_injection_witness :
  exists p f, In (Evaluate p) (trace_of w_ok ["/cases/c1"]) /\ in_page w_ok p = Ok tt
              /\ window_renderReportFromJson w_ok = Some f.
Proof.
  destruct (export_only_after_injection w_ok ["/cases/c1"]
              {| path := "/cases/report-20250720-090500.pdf";
                 printBackground := true; preferCSSPageSize := true |})
    as (_ & _ & _ & H & _).
  - vm_compute. in_trace.
  - exact H.
Defined.

Lemma render_status w html tempDir htmlPath outPath :
  let r := finish (render w html tempDir htmlPath outPath) in
  (snd r = 0%Z \/ snd r = 1%Z)
  /\ (snd r = 0%Z <-> exported w (fst r) outPath /\ browser_close w = Ok tt)
  /\ (snd r = 0%Z <->
      last (fst r) = Some (ConsoleLog [AStr "✔ Done. Saved:"; AStr outPath]))
  /\ (exported w (fst r) outPath -> is_err (browser_close w) = true ->
      snd r = 1%Z /\ existsb is_BrowserClose (fst r) = true).
Proof.
  intros r; subst r. unfold exported.
  run_as t c; cbn.
  all: split; [first [left; reflexivity | right; reflexivity] |].
  all: split;
    [ split;
      [ first [discriminate | intros _; split; [split; [in_trace | reflexivity] | reflexivity]]
      | first [reflexivity | intros [[Hin Hok] Hc]; intuition congruence] ] |].
  all: split; [split; first [reflexivity | discriminate] |].
  all: intros [Hin Hok] Hc; first [discriminate Hc | split; reflexivity | idtac].
  all: exfalso; intuition congruence.
Qed.

(** X9.  Every run ends with status 0 or 1.  For a run with a bundle
    directory the status is 0 exactly when the export answered and
    [browser.close] answered, and exactly then the last line logged is
    "Done. Saved:" with the output path; a rejected [browser.close] after
    the file was written still ends the run with status 1. *)
Theorem status_zero_iff_done (w : World) (raw : list string) :
  (status_of w raw = 0%Z \/ status_of w raw = 1%Z)
  /\ (forall html p0 rest, parseArgs raw = (html, p0 :: rest) ->
      let outPath := outPath_of w (path_resolve w [p0]) (head rest) in
      (status_of w raw = 0%Z <->
       exported w (trace_of w raw) outPath /\ browser_close w = Ok tt)
      /\ (status_of w raw = 0%Z <->
          last (trace_of w raw) = Some (ConsoleLog [AStr "✔ Done. Saved:"; AStr outPath]))
      /\ (exported w (trace_of w raw) outPath -> is_err (browser_close w) = true ->
          status_of w raw = 1%Z /\ existsb is_BrowserClose (trace_of w raw) = true)).
Proof.
  unfold status_of, trace_of. split.
  - destruct (parseArgs raw) as [html [|p0 rest]] eqn:Hargs.
    + rewrite (run_usage w raw html Hargs). by right.
    + rewrite (run_args w raw html p0 rest Hargs). apply render_status.
  - intros html p0 rest Hargs. cbv zeta.
    rewrite (run_args w raw html p0 rest Hargs).
    apply render_status.
Qed.

Lemma render_goto w html tempDir htmlPath outPath e :
  In e (List.filter is_Goto (fst (finish (render w html tempDir htmlPath outPath)))) ->
  e = Goto (pathToFileURL_href w htmlPath) "domcontentloaded"
  /\ fs_access w htmlPath = Ok tt
  /\ fs_access w (path_join w [tempDir; "tricho_data.json"]) = Ok tt.
Proof.
  run_as t c; cbn; intros H; try contradiction.
  all: destruct H as [<- | []]; repeat split.
Qed.

Lemma render_logs_template w html tempDir htmlPath outPath :
  In (ConsoleLog [AStr "html            :"; AStr htmlPath;
                  AStr (if truthy_flag html then "(override)" else "(default)")])
     (fst (finish (render w html tempDir htmlPath outPath))).
Proof.
  run_as t c; cbn; in_trace.
Qed.

(** X10.  In every run with a bundle directory, the template that is
    checked for existence and then loaded is one and the same path: the
    resolved value of the "--html" flag when that value is a non-empty
    string, and the bundled report_template.html beside the program when
    the flag is unset or empty.  The page is loaded from the file URL of
    that path, waiting for "domcontentloaded", and only after both
    existence checks answered; the path and which of the two it is are
    logged. *)
Theorem template_selection (w : World) (raw : list string) (html : option string)
    (p0 : string) (rest : list string) :
  parseArgs raw = (html, p0 :: rest) ->
  (forall url waitUntil, In (Goto url waitUntil) (trace_of w raw) ->
     url = pathToFileURL_href w (htmlPath_of w html)
     /\ waitUntil = "domcontentloaded"
     /\ fs_access w (htmlPath_of w html) = Ok tt
     /\ fs_access w (path_join w [path_resolve w [p0]; "tricho_data.json"]) = Ok tt)
  /\ (forall h, html = Some h -> h <> "" -> htmlPath_of w html = path_resolve w [h])
  /\ (html = None \/ html = Some "" ->
      htmlPath_of w html = path_resolve w [__dirname w; "report_template.html"])
  /\ In (ConsoleLog [AStr "html            :"; AStr (htmlPath_of w html);
                     AStr (if truthy_flag html then "(override)" else "(default)")])
        (trace_of w raw).
Proof.
  intros Hargs. unfold trace_of. rewrite (run_args w raw html p0 rest Hargs).
  split; [| split; [| split]].
  - intros url wu Hin.
    assert (Hf : In (Goto url wu)
                   (List.filter is_Goto
                      (fst (finish (render w html (path_resolve w [p0]) (htmlPath_of w html)
                                      (outPath_of w (path_resolve w [p0]) (head rest)))))))
      by (apply filter_In; by split).
    apply render_goto in Hf as (Heq & Ha & Hd). injection Heq as -> ->. by repeat split.
  - intros h -> Hne. unfold htmlPath_of, truthy_flag.
    apply truthy_string_iff in Hne. by rewrite Hne.
  - intros [-> | ->]; reflexivity.
  - apply render_logs_template.
Qed.

Lemma template_selection_witness :
  In (ConsoleLog [AStr "html            :"; AStr "t.html"; AStr "(override)"])
     (trace_of w_ok ["/cases/c1"; "--html"; "t.html"]).
Proof.
  destruct (template_selection w_ok ["/cases/c1"; "--html"; "t.html"] (Some "t.html")
              "/cases/c1" [] eq_refl) as (_ & _ & _ & H).
  exact H.
Defined.

(** The payload of the injection, from what the loader returned. *)
Lemma render_payload w html tempDir htmlPath outPath e :
  In e (List.filter is_Evaluate (fst (finish (render w html tempDir htmlPath outPath)))) ->
  exists meta arr pid ed,
    snd (readTrichoData w tempDir) = Returns (meta, arr)
    /\ safeMeta w meta "name" "-" = Ok pid
    /\ safeMeta w meta "appointment_date" (toLocaleString_ja_JP w) = Ok ed
    /\ e = Evaluate
             {| data := arr;
                opts :=
                  {| patientId := pid;
                     examDate := ed;
                     thresholds := THRESHOLDS;
                     images :=
                       {| normalBaseUrl :=
                            toBaseUrl w (path_join w [__dirname w; "normal_images"]);
                          patientBaseUrl :=
                            toBaseUrl w (path_join w [tempDir; "filtered_images"]) |} |} |}.
Proof.
  run_as t c; cbn; intros H; try contradiction.
  all: destruct H as [<- | []]; eexists _, _, _, _;
    split; [reflexivity |]; split; [eassumption |]; split; [eassumption | reflexivity].
Qed.

Lemma or_fallback_nonempty str fallback : fallback <> "" -> or_fallback str fallback <> "".
Proof.
  intros Hf. unfold or_fallback.
  destruct (truthy_string (trim str)) eqn:E; [| exact Hf].
  by apply truthy_string_iff.
Qed.

(** What [safeMeta] returns for a non-empty fallback is not empty. *)
Lemma safeMeta_nonempty w meta key fallback s :
  fallback <> "" -> safeMeta w meta key fallback = Ok s -> s <> "".
Proof.
  intros Hf. unfold safeMeta.
  destruct (get w meta key) as [| v | text].
  - intros [= <-]. exact Hf.
  - destruct v; try (intros [= <-]; exact Hf);
      match goal with
      | |- context [String_ ?v] => destruct (String_ v) as [str | e]
      end; try discriminate; intros [= <-]; by apply or_fallback_nonempty.
  - intros [= <-]. by apply or_fallback_nonempty.
Qed.

(** X11.  Every call of the page function carries the same configuration:
    the three thresholds 0.3, 1.8 and 0.15, and the two image base URLs,
    that of normal_images beside the program and that of filtered_images
    under the bundle directory, each ending with a slash.  The subject
    identifier it carries is never empty, and the exam date is empty only
    if the locale string of the clock is. *)
Theorem payload_configuration (w : World) (raw : list string) (html : option string)
    (p0 : string) (rest : list string) (p : payload_t) :
  parseArgs raw = (html, p0 :: rest) ->
  In (Evaluate p) (trace_of w raw) ->
  thresholds (opts p) = {| thin60 := 3 # 10; ratio_max := 18 # 10; ultra30 := 15 # 100 |}
  /\ normalBaseUrl (images (opts p))
     = toBaseUrl w (path_join w [__dirname w; "normal_images"])
  /\ patientBaseUrl (images (opts p))
     = toBaseUrl w (path_join w [path_resolve w [p0]; "filtered_images"])
  /\ endsWith_slash (normalBaseUrl (images (opts p))) = true
  /\ endsWith_slash (patientBaseUrl (images (opts p))) = true
  /\ patientId (opts p) <> ""
  /\ (toLocaleString_ja_JP w <> "" -> examDate (opts p) <> "").
Proof.
  intros Hargs Hin. unfold trace_of in Hin.
  rewrite (run_args w raw html p0 rest Hargs) in Hin.
  assert (Hf : In (Evaluate p)
                 (List.filter is_Evaluate
                    (fst (finish (render w html (path_resolve w [p0]) (htmlPath_of w html)
                                    (outPath_of w (path_resolve w [p0]) (head rest)))))))
    by (apply filter_In; by split).
  apply render_payload in Hf as (meta & arr & pid & ed & _ & Hpid & Hed & Heq).
  injection Heq as ->.
  cbn [opts thresholds images normalBaseUrl patientBaseUrl patientId examDate].
  split; [reflexivity |]. split; [reflexivity |]. split; [reflexivity |].
  split; [apply toBaseUrl_slash |]. split; [apply toBaseUrl_slash |].
  split; [by apply (safeMeta_nonempty w meta "name" "-") |].
  intros Hl. by apply (safeMeta_nonempty w meta "appointment_date" (toLocaleString_ja_JP w)).
Qed.

Lemma payload_configuration_witness :
  exists p, In (Evaluate p) (trace_of w_no_metadata ["/cases/c1"])
            /\ patientId (opts p) <> ""
            /\ normalBaseUrl (images (opts p)) = "file:///app/normal_images/".
Proof.
  set (p := {| data := [];
               opts := {| patientId := "-"; examDate := "2025/7/20 9:05:00";
                          thresholds := THRESHOLDS;
                          images := {| normalBaseUrl := "file:///app/normal_images/";
                                       patientBaseUrl := "file:///cases/c1/filtered_images/" |} |} |}).
  assert (Hin : In (Evaluate p) (trace_of w_no_metadata ["/cases/c1"]))
    by (vm_compute; in_trace).
  destruct (payload_configuration w_no_metadata ["/cases/c1"] None "/cases/c1" [] p
              eq_refl Hin) as (_ & _ & _ & _ & _ & Hid & _).
  exists p. split; [exact Hin |]. split; [exact Hid | reflexivity].
Defined.

(** X12.  For every run on a data file that parses to an object whose
    [report_metadata] is absent or falsy ([null], [false], 0, the empty
    string) or is an empty object, every call of the page function carries
    the placeholder "-" as subject identifier and the locale string of the
    clock as exam date. *)
Theorem metadata_fallbacks (w : World) (raw : list string) (html : option string)
    (p0 : string) (rest : list string) (text : string) (m : gmap string value)
    (p : payload_t) :
  parseArgs raw = (html, p0 :: rest) ->
  fs_readFile w (path_join w [path_resolve w [p0]; "tricho_data.json"]) = Ok text ->
  JSON_parse w text = Ok (JObj m) ->
  truthy (m !! "report_metadata") = false \/ m !! "report_metadata" = Some (JObj ∅) ->
  In (Evaluate p) (trace_of w raw) ->
  patientId (opts p) = "-" /\ examDate (opts p) = toLocaleString_ja_JP w.
Proof.
  intros Hargs Hread Hparse Hmeta Hin. unfold trace_of in Hin.
  rewrite (run_args w raw html p0 rest Hargs) in Hin.
  assert (Hf : In (Evaluate p)
                 (List.filter is_Evaluate
                    (fst (finish (render w html (path_resolve w [p0]) (htmlPath_of w html)
                                    (outPath_of w (path_resolve w [p0]) (head rest)))))))
    by (apply filter_In; by split).
  apply render_payload in Hf as (meta & arr & pid & ed & Hload & Hpid & Hed & Heq).
  injection Heq as ->.
  rewrite (readTrichoData_parsed w _ text (JObj m) Hread Hparse eq_refl) in Hload.
  cbn [snd] in Hload. injection Hload as Hloaded _.
  assert (E : meta_of (JObj m) = JObj ∅).
  { unfold meta_of. cbn [own_property].
    destruct Hmeta as [Hm | ->]; [| reflexivity].
    destruct (m !! "report_metadata") as [v|]; [by rewrite Hm | reflexivity]. }
  assert (Hempty : meta = JObj ∅) by (rewrite <- Hloaded; exact E).
  rewrite Hempty in Hpid, Hed.
  cbn [opts patientId examDate]. split.
  - vm_compute in Hpid. by injection Hpid as <-.
  - change (safeMeta w (JObj ∅) "appointment_date" (toLocaleString_ja_JP w))
      with (Ok (toLocaleString_ja_JP w) : result string) in Hed.
    by injection Hed as <-.
Qed.

Lemma metadata_fallbacks_witness :
  exists p, In (Evaluate p) (trace_of w_no_metadata ["/cases/c1"])
            /\ patientId (opts p) = "-" /\ examDate (opts p) = "2025/7/20 9:05:00".
Proof.
  set (p := {| data := [];
               opts := {| patientId := "-"; examDate := "2025/7/20 9:05:00";
                          thresholds := THRESHOLDS;
                          images := {| normalBaseUrl := "file:///app/normal_images/";
                                       patientBaseUrl := "file:///cases/c1/filtered_images/" |} |} |}).
  assert (Hin : In (Evaluate p) (trace_of w_no_metadata ["/cases/c1"]))
    by (vm_compute; in_trace).
  exists p. split; [exact Hin |].
  apply (metadata_fallbacks w_no_metadata ["/cases/c1"] None "/cases/c1" [] "{}"
           {[ "tricho_analysis" := JArr [] ]} p eq_refl eq_refl eq_refl);
    [left; reflexivity | exact Hin].
Defined.

(* ================================================================== *)
Lemma render_unconvertible_metadata w html tempDir htmlPath outPath text json :
  fs_access w (path_join w [tempDir; "tricho_data.json"]) = Ok tt ->
  fs_access w htmlPath = Ok tt ->
  fs_readFile w (path_join w [tempDir; "tricho_data.json"]) = Ok text ->
  JSON_parse w text = Ok json ->
  is_null json = false ->
  let r := finish (render w html tempDir htmlPath outPath) in
  let fatal e :=
    snd r = 1%Z /\ existsb is_Launch (fst r) = false /\ existsb is_Pdf (fst r) = false
    /\ last (fst r) = Some (ConsoleError [AStr "✗ Error:"; AErr e]) in
  (forall e, safeMeta w (meta_of json) "name" "-" = Err e -> fatal e)
  /\ (forall pid e,
        safeMeta w (meta_of json) "name" "-" = Ok pid ->
        safeMeta w (meta_of json) "appointment_date" (toLocaleString_ja_JP w) = Err e ->
        fatal e).
Proof.
  intros Ha1 Ha2 Hread Hparse Hnull r fatal. subst r fatal. cbv beta.
  unfold finish, render.
  rewrite (readTrichoData_parsed w tempDir text json Hread Hparse Hnull).
  step. rewrite Ha1. step. rewrite Ha2. step.
  split.
  - intros e He. rewrite He. step. repeat split.
  - intros pid e Hpid He. rewrite Hpid. step. rewrite He. step. repeat split.
Qed.

(** X16.  With a bundle directory, both inputs in place and a data file that
    parses to a value other than [null], a metadata field without a string
    form is fatal: when [safeMeta] throws for the name, or returns for the
    name and throws for the date, the error is reported by the handler of
    the last line, the status is 1, and neither a browser is started nor an
    export made.  This is what happens when the metadata object binds the
    name to a value that holds an object with a [toString] key of its
    own. *)
Theorem unconvertible_metadata_is_fatal (w : World) (raw : list string)
    (html : option string) (p0 : string) (rest : list string) (text : string)
    (json : value) :
  parseArgs raw = (html, p0 :: rest) ->
  let dataJsonPath := path_join w [path_resolve w [p0]; "tricho_data.json"] in
  fs_access w dataJsonPath = Ok tt ->
  fs_access w (htmlPath_of w html) = Ok tt ->
  fs_readFile w dataJsonPath = Ok text ->
  JSON_parse w text = Ok json ->
  is_null json = false ->
  (forall e, safeMeta w (meta_of json) "name" "-" = Err e -> fatal_before_launch w raw e)
  /\ (forall pid e,
        safeMeta w (meta_of json) "name" "-" = Ok pid ->
        safeMeta w (meta_of json) "appointment_date" (toLocaleString_ja_JP w) = Err e ->
        fatal_before_launch w raw e)
  /\ (forall m v, meta_of json = JObj m -> m !! "name" = Some v ->
                  convertible v = false ->
                  exists e, String_ v = Err e /\ fatal_before_launch w raw e).
Proof.
  intros Hargs dataJsonPath Ha1 Ha2 Hread Hparse Hnull.
  unfold fatal_before_launch, status_of, trace_of.
  rewrite (run_args w raw html p0 rest Hargs).
  destruct (render_unconvertible_metadata w html (path_resolve w [p0]) (htmlPath_of w html)
              (outPath_of w (path_resolve w [p0]) (head rest)) text json
              Ha1 Ha2 Hread Hparse Hnull) as (H1 & H2).
  split; [exact H1 |]. split; [exact H2 |].
  intros m v Hm Hv Hc. apply String_throws_iff in Hc as [e Hs].
  exists e. split; [exact Hs |]. apply H1. rewrite Hm.
  assert (Hn : v <> JNull) by (intros ->; discriminate Hs).
  by rewrite (safeMeta_stored w m "name" "-" v Hv Hn), Hs.
Qed.

Lemma unconvertible_metadata_is_fatal_witness :
  fatal_before_launch w_unconvertible_name ["/cases/c1"]
    (TypeError "Cannot convert object to primitive value").
Proof.
  destruct (unconvertible_metadata_is_fatal w_unconvertible_name ["/cases/c1"] None
              "/cases/c1" [] "{}"
              (JObj {[ "report_metadata" :=
                         JObj {[ "name" := JObj {[ "toString" := JNum "1" ]} ]} ]})
              eq_refl eq_refl eq_refl eq_refl eq_refl eq_refl) as (H & _).
  apply H. vm_compute. reflexivity.
Defined.

(** ** Further properties: newest_folder_getter.ps1 *)
(* ================================================================== *)

Section LatestFolder.
Import NewestFolderGetter.

(** The first of the subfolders after sorting. *)
Lemma subfolders_cases h dir :
  (exists f,
     head (Sort_Object_Descending
             (List.filter (fun f => IsDirectory f) (Get_ChildItem h dir))) = Some f
     /\ is_subfolder h dir f
     /\ forall g, is_subfolder h dir g -> (LastWriteTime g <= LastWriteTime f)%Z)
  \/ (head (Sort_Object_Descending
              (List.filter (fun f => IsDirectory f) (Get_ChildItem h dir))) = None
      /\ forall g, ~ is_subfolder h dir g).
Proof.
  unfold is_subfolder.
  destruct (head _) as [f|] eqn:E.
  - left. exists f. apply head_sorted_newest in E as [Hin Hnew].
    split; [reflexivity |]. split.
    + by apply filter_In in Hin.
    + intros g Hg. apply Hnew. by apply filter_In.
  - right. apply head_sorted_none in E. split; [reflexivity |].
    intros g Hg.
    assert (Hin : In g (List.filter (fun f => IsDirectory f) (Get_ChildItem h dir)))
      by (apply filter_In; exact Hg).
    rewrite E in Hin. destruct Hin.
Qed.

Lemma report_cases h dir targetDate :
  (exists f, report h (Some dir) targetDate = FullName f
             /\ is_match h dir targetDate f
             /\ forall g, is_match h dir targetDate g ->
                          (LastWriteTime g <= LastWriteTime f)%Z)
  \/ (report h (Some dir) targetDate = ToShortDateString h targetDate ++ " has no report"
      /\ forall g, ~ is_match h dir targetDate g).
Proof.
  unfold report, newestFile.
  change (children h (Some dir)) with (Get_ChildItem h dir).
  destruct (head _) as [f|] eqn:E.
  - left. exists f. apply head_sorted_newest in E as [Hin Hnew].
    split; [reflexivity |]. split; [by apply kept_iff_match |].
    intros g Hg. apply Hnew. by apply kept_iff_match.
  - right. apply head_sorted_none in E. split; [reflexivity |].
    intros g Hg. apply kept_iff_match in Hg. rewrite E in Hg. destruct Hg.
Qed.

End LatestFolder.

(** X13.  For every directory, the folder query returns the full path of a
    subfolder of the directory than which no other subfolder was written
    more recently, files being left aside, or nothing when the directory
    has no subfolder. *)
Theorem latest_folder_spec (h : NewestFolderGetter.Host) (dir : string) :
  (exists f,
     NewestFolderGetter.latestFolder h dir = Some (NewestFolderGetter.FullName f)
     /\ NewestFolderGetter.is_subfolder h dir f
     /\ forall g, NewestFolderGetter.is_subfolder h dir g ->
                  (NewestFolderGetter.LastWriteTime g
                   <= NewestFolderGetter.LastWriteTime f)%Z)
  \/ (NewestFolderGetter.latestFolder h dir = None
      /\ forall g, ~ NewestFolderGetter.is_subfolder h dir g).
Proof.
  destruct (subfolders_cases h dir) as [(f & E & Hf & Hnew) | [E Hnone]].
  - left. exists f. unfold NewestFolderGetter.latestFolder. rewrite E.
    split; [reflexivity |]. by split.
  - right. unfold NewestFolderGetter.latestFolder. rewrite E.
    split; [reflexivity | exact Hnone].
Qed.

(** X14.  The script as a whole returns the newest report of the newest
    case folder.  When the database directory has no subfolder, it returns
    the text "<short date> has no report".  Otherwise the folder it looks
    into is a most recently written subfolder of the database directory,
    and: when that folder holds a PDF file written on or after 2025-07-20
    0:00, the script returns the full path of such a file, none of them
    being more recent; when it holds none, the script returns the text
    "<short date> has no report". *)
Theorem script_newest_report_of_newest_folder (h : NewestFolderGetter.Host) :
  let answer := NewestFolderGetter.script h in
  let base := NewestFolderGetter.baseDir in
  let day := NewestFolderGetter.targetDate_literal in
  let none := NewestFolderGetter.ToShortDateString h day ++ " has no report" in
  NewestFolderGetter.Date day = day
  /\ ((forall d, ~ NewestFolderGetter.is_subfolder h base d) -> answer = none)
  /\ (((forall d, ~ NewestFolderGetter.is_subfolder h base d)
       /\ NewestFolderGetter.latestFolder h base = None
       /\ answer = none)
      \/ exists d,
           NewestFolderGetter.is_subfolder h base d
           /\ (forall d', NewestFolderGetter.is_subfolder h base d' ->
                          (NewestFolderGetter.LastWriteTime d'
                           <= NewestFolderGetter.LastWriteTime d)%Z)
           /\ NewestFolderGetter.latestFolder h base
              = Some (NewestFolderGetter.FullName d)
           /\ ((exists f,
                  NewestFolderGetter.is_match h (NewestFolderGetter.FullName d) day f
                  /\ (forall g,
                        NewestFolderGetter.is_match h (NewestFolderGetter.FullName d) day g ->
                        (NewestFolderGetter.LastWriteTime g
                         <= NewestFolderGetter.LastWriteTime f)%Z)
                  /\ answer = NewestFolderGetter.FullName f)
               \/ ((forall g,
                      ~ NewestFolderGetter.is_match h (NewestFolderGetter.FullName d) day g)
                   /\ answer = none))).
Proof.
  intros answer base day none. subst answer base day none.
  split; [reflexivity |].
  unfold NewestFolderGetter.script, NewestFolderGetter.latestFolder.
  destruct (subfolders_cases h NewestFolderGetter.baseDir)
    as [(d & -> & Hd & Hnew) | [-> Hnone]]; cbn [fmap option_fmap option_map].
  - split.
    + intros Hno. exfalso. by apply (Hno d).
    + right. exists d.
      split; [exact Hd |]. split; [exact Hnew |]. split; [reflexivity |].
      destruct (report_cases h (NewestFolderGetter.FullName d)
                  NewestFolderGetter.targetDate_literal)
        as [(f & -> & Hf & Hmax) | [-> Hno]].
      * left. exists f. split; [exact Hf |]. split; [exact Hmax | reflexivity].
      * right. split; [exact Hno | reflexivity].
  - split; [reflexivity |]. left. split; [exact Hnone |]. split; reflexivity.
Qed.

(** A database directory whose newest subfolder holds two reports. *)
Example script_samples :
  NewestFolderGetter.script NewestFolderGetter.empty_host = "2025/07/20 has no report"
  /\ NewestFolderGetter.script NewestFolderGetter.sample_database
     = "C:\ProgramData\Canfield\Databases\HairMetrixDB\case2\b.pdf".
Proof. vm_compute. split; reflexivity. Qed.

(* ================================================================== *)
(** ** Further properties: the error stream *)
(* ================================================================== *)

Lemma render_error_stream w html tempDir htmlPath outPath :
  let r := finish (render w html tempDir htmlPath outPath) in
  length (List.filter is_ConsoleError (fst r)) = (if (snd r =? 0)%Z then 0 else 1)%nat
  /\ (snd r <> 0%Z -> exists args, last (fst r) = Some (ConsoleError args)).
Proof.
  intros r; subst r.
  run_as t c; cbn; (split; [reflexivity |]); intros H; try congruence; by eexists.
Qed.

(** X15.  A run writes to the error stream only when it fails, and then
    once, as the last thing it does: a run that ends with status 0 makes no
    [console.error] call, and a run that ends with another status makes
    exactly one, the last entry of its trace (the usage text, the message
    of a missing input, or the report of the error). *)
Theorem error_stream_only_on_failure (w : World) (raw : list string) :
  length (List.filter is_ConsoleError (trace_of w raw))
  = (if (status_of w raw =? 0)%Z then 0 else 1)%nat
  /\ (status_of w raw <> 0%Z ->
      exists args, last (trace_of w raw) = Some (ConsoleError args)).
Proof.
  unfold status_of, trace_of.
  destruct (parseArgs raw) as [html [|p0 rest]] eqn:Hargs.
  - rewrite (run_usage w raw html Hargs). cbn. split; [reflexivity |]. by eexists.
  - rewrite (run_args w raw html p0 rest Hargs). apply render_error_stream.
Qed.
